(** * Verification of the vcMiD presence bridge and the guinea pig text bridge

    Shallow embedding of [src/silly.tsx] (activity synthesis, application
    resolution, category inference) and of [src/vrcText.ts] (outgoing chat
    interception), followed by the properties established about them. *)

From Stdlib Require Import ZArith String Ascii List Bool Lia.
From stdpp Require Import base option strings gmap.
Import ListNotations.

#[local] Set Warnings "-register-all".

Local Open Scope string_scope.
Local Open Scope Z_scope.

(** ** JavaScript values

    The dynamically typed data the two plugins handle: the activity object
    that is built and pruned key by key, and the [any]-typed metadata
    document returned by [res.json()]. Numbers are the integers (epoch
    seconds, enum codes, flags). *)

Inductive Value : Type :=
| VUndefined
| VNull
| VBool (b : bool)
| VNumber (n : Z)
| VString (s : string)
| VArray (items : list Value)
| VObject (fields : list (string * Value)).

(** An object is the list of its own properties in insertion order, one
    entry per key. *)
Abbreviation Obj := (list (string * Value)).

Fixpoint obj_get (k : string) (o : Obj) : option Value :=
  match o with
  | [] => None
  | (k', v) :: o' => if String.eqb k' k then Some v else obj_get k o'
  end.

(** [o[k] = v]: overwrite in place when the key exists, else append. *)
Fixpoint obj_set (k : string) (v : Value) (o : Obj) : Obj :=
  match o with
  | [] => [(k, v)]
  | (k', v') :: o' =>
      if String.eqb k' k then (k', v) :: o' else (k', v') :: obj_set k v o'
  end.

(** [v.k] on a value that is known not to be [undefined] or [null]. *)
Definition field (k : string) (v : Value) : Value :=
  match v with
  | VObject o => default VUndefined (obj_get k o)
  | _ => VUndefined
  end.

(** [{...v}]: the own properties of an object, nothing for [undefined]. *)
Definition spread (v : Value) : Obj :=
  match v with
  | VObject o => o
  | _ => []
  end.

(** JavaScript truthiness ([!v] is its negation). *)
Definition truthy (v : Value) : bool :=
  match v with
  | VUndefined | VNull => false
  | VBool b => b
  | VNumber n => negb (n =? 0)
  | VString s => negb (String.eqb s "")
  | VArray _ | VObject _ => true
  end.

(** [v.length === 0] for a truthy or falsy [v] that is not nullish. *)
Definition length_is_zero (v : Value) : bool :=
  match v with
  | VString s => String.eqb s ""
  | VArray l => match l with [] => true | _ => false end
  | VObject o =>
      match obj_get "length" o with
      | Some (VNumber 0) => true
      | _ => false
      end
  | _ => false
  end.

Definition ofString (o : option string) : Value :=
  match o with
  | Some s => VString s
  | None => VUndefined
  end.

Definition ofStrings (l : list string) : Value := VArray (map VString l).

(** ** Strings *)

(** [s.charAt(0)] *)
Definition charAt0 (s : string) : string :=
  match s with
  | EmptyString => ""
  | String c _ => String c ""
  end.

Definition is_alpha (c : ascii) : bool :=
  let n := nat_of_ascii c in
  ((65 <=? n) && (n <=? 90) || (97 <=? n) && (n <=? 122))%nat.

Definition is_digit (c : ascii) : bool :=
  let n := nat_of_ascii c in
  ((48 <=? n) && (n <=? 57))%nat.

(** [s.match(/[...]/)] is non-null: some character of [s] is in the class. *)
Fixpoint matches (cls : ascii -> bool) (s : string) : bool :=
  match s with
  | EmptyString => false
  | String c s' => cls c || matches cls s'
  end.

Fixpoint startsWith (p s : string) : bool :=
  match p, s with
  | EmptyString, _ => true
  | String a p', String b s' => Ascii.eqb a b && startsWith p' s'
  | String _ _, EmptyString => false
  end.

(** [s.includes(p)] on strings. *)
Fixpoint str_includes (p s : string) : bool :=
  startsWith p s ||
  match s with
  | EmptyString => false
  | String _ s' => str_includes p s'
  end.

(** Decimal rendering of an integer, as [Number.prototype.toString] gives
    it for the integers a timestamp difference can be. *)
Fixpoint digits (fuel : nat) (n : N) (acc : string) : string :=
  match fuel with
  | O => acc
  | S fuel' =>
      let acc' := String (ascii_of_N (48 + n mod 10)) acc in
      if (n / 10 =? 0)%N then acc' else digits fuel' (n / 10)%N acc'
  end.

Definition toString (z : Z) : string :=
  let n := Z.abs_N z in
  let body := digits (S (N.to_nat (N.log2 n))) n "" in
  if z <? 0 then String "-"%char body else body.

(** [s.padStart(2, '0')] *)
Definition padStart2 (s : string) : string :=
  match String.length s with
  | O => "00"
  | S O => String "0"%char s
  | _ => s
  end.

(** ** src/silly.tsx *)

Module Silly.

Inductive ActivityType : Type := PLAYING | LISTENING | WATCHING | COMPETING.

Definition code (t : ActivityType) : Z :=
  match t with
  | PLAYING => 0
  | LISTENING => 2
  | WATCHING => 3
  | COMPETING => 5
  end.

(** [ActivityFlag.INSTANCE = 1 << 0] *)
Definition INSTANCE : Z := Z.shiftl 1 0.

(** An [ActivityType | undefined] as the JavaScript value it is at run time. *)
Definition typeValue (t : option ActivityType) : Value :=
  match t with
  | Some t => VNumber (code t)
  | None => VUndefined
  end.

(** The inbound payload [pmActivity], with the fields [getActivity] reads.
    Every field the code guards with [?.], [??], [||] or a truthiness test
    is optional. *)
Record ActivityAssets : Type := {
  large_image : option string;
  large_text : option string;
  small_image : option string;
  small_text : option string;
}.

Record Timestamps : Type := {
  start : option Z;
  end_ : option Z;
}.

Record Metadata : Type := {
  button_urls : option (list string);
}.

Record Activity : Type := {
  application_id : string;
  state : option string;
  details : option string;
  timestamps : option Timestamps;
  assets : option ActivityAssets;
  buttons : option (list string);
  metadata : option Metadata;
}.

Definition ofNumber (o : option Z) : Value :=
  match o with
  | Some n => VNumber n
  | None => VUndefined
  end.

Definition present (k : string) (v : Value) : Obj :=
  match v with
  | VUndefined => []
  | _ => [(k, v)]
  end.

(** The inbound objects as the values that are copied through by reference. *)
Definition timestampsValue (t : Timestamps) : Value :=
  VObject (present "start" (ofNumber (start t)) ++ present "end" (ofNumber (end_ t))).

Definition metadataValue (m : option Metadata) : Value :=
  match m with
  | Some m =>
      VObject
        match button_urls m with
        | Some l => [("button_urls", ofStrings l)]
        | None => []
        end
  | None => VUndefined
  end.

Record PublicApp : Type := {
  id : string;
  name : string;
  icon : string;
  statusType : option ActivityType;
  flags : Z;
}.

Module settings.
Record store : Type := {
  showButtons : bool;
  manualShare : bool;
  hideViewChannel : bool;
  statusType : option ActivityType;
}.
End settings.

(** What [fetch] resolves to: the [ok] flag and the body as [res.json()]
    decodes it, [None] when the body is not JSON and [res.json()] rejects. *)
Record Response : Type := {
  ok : bool;
  json : option Value;
}.

(** The host the plugin runs in: the external collaborators and the clock.
    A lookup that answers [None] rejects its promise. *)
Record Host : Type := {
  lookupRpcApp : string -> option PublicApp;
  fetch : string -> option Response;
  getAsset : string -> string -> option string;
  Date_now : Z;
  settings_store : settings.store;
}.

(** [this.version] *)
Definition version : string := "1.2.0".

(** *** The async monad: the module-level cache [apps], the log of the
    external calls made so far, and promise rejection. *)

Inductive Call : Type :=
| CallLookupRpcApp (applicationId : string)
| CallFetch (url : string)
| CallGetAsset (appId key : string).

(** [apps] is the plain object used as the cache, read at application
    identifiers (Discord snowflakes); a stored descriptor is an object and
    so always truthy. *)
Record Store : Type := {
  apps : gmap string PublicApp;
  calls : list Call;
}.

Inductive Outcome (A : Type) : Type :=
| Returned (a : A) (s : Store)
| Rejected (s : Store).
Arguments Returned {A} a s.
Arguments Rejected {A} s.

Definition Async (A : Type) : Type := Store -> Outcome A.

Definition ret {A} (a : A) : Async A := fun s => Returned a s.

Definition bind {A B} (m : Async A) (f : A -> Async B) : Async B :=
  fun s =>
    match m s with
    | Returned a s' => f a s'
    | Rejected s' => Rejected s'
    end.

Notation "'let*' x ':=' m 'in' k" := (bind m (fun x => k))
  (at level 10, x name, m at level 100, k at level 200).

(** An awaited external call: logged, then its answer or a rejection. *)
Definition await {A} (c : Call) (answer : option A) : Async A :=
  fun s =>
    let s' := {| apps := apps s; calls := calls s ++ [c] |} in
    match answer with
    | Some a => Returned a s'
    | None => Rejected s'
    end.

(** [apps[applicationId] = app] *)
Definition remember (applicationId : string) (app : PublicApp) : Async unit :=
  fun s => Returned tt {| apps := <[applicationId := app]> (apps s); calls := calls s |}.

(** *** determineStatusType *)

(** A JavaScript completion inside the [try] block: a value or a thrown
    [TypeError]. *)
Inductive Completion (A : Type) : Type :=
| Normal (a : A)
| TypeError.
Arguments Normal {A} a.
Arguments TypeError {A}.

(** [v.k] for a key that no built-in prototype defines ([category],
    [tags]): reading it off [undefined] or [null] throws. *)
Definition getProp (v : Value) (k : string) : Completion Value :=
  match v with
  | VUndefined | VNull => TypeError
  | _ => Normal (field k v)
  end.

Definition isString (s : string) (v : Value) : bool :=
  match v with
  | VString s' => String.eqb s' s
  | _ => false
  end.

(** [tags.includes(x)]: a substring test on a string, a membership test on
    an array, and a [TypeError] on anything else, which has no callable
    [includes]. *)
Definition includes (tags : Value) (x : string) : Completion bool :=
  match tags with
  | VString s => Normal (str_includes x s)
  | VArray l => Normal (existsb (isString x) l)
  | _ => TypeError
  end.

(** [tags.some(p)]: only arrays have [some]. *)
Definition some (tags : Value) (p : Value -> bool) : Completion bool :=
  match tags with
  | VArray l => Normal (existsb p l)
  | _ => TypeError
  end.

(** [['video', 'media', 'streaming'].includes(tag)] *)
Definition isMediaTag (tag : Value) : bool :=
  existsb (fun s => isString s tag) ["video"; "media"; "streaming"].

(** The [switch] over [metadata.category]. *)
Definition categorize (metadata : Value) : Completion (option ActivityType) :=
  match getProp metadata "category" with
  | TypeError => TypeError
  | Normal category =>
      if isString "socials" category then
        match getProp metadata "tags" with
        | TypeError => TypeError
        | Normal tags =>
            match includes tags "video" with
            | TypeError => TypeError
            | Normal true => Normal (Some WATCHING)
            | Normal false => Normal None
            end
        end
      else if isString "anime" category then
        match getProp metadata "tags" with
        | TypeError => TypeError
        | Normal tags =>
            match some tags isMediaTag with
            | TypeError => TypeError
            | Normal true => Normal (Some WATCHING)
            | Normal false => Normal None
            end
        end
      else if isString "music" category then Normal (Some LISTENING)
      else if isString "videos" category then Normal (Some WATCHING)
      else Normal None
  end.

Definition firstCharacter (info : PublicApp) : string :=
  let firstCharacter := charAt0 (name info) in
  if matches is_alpha firstCharacter then firstCharacter
  else if matches is_digit firstCharacter then "0-9"
  else "%23".

Definition metadataUrl (info : PublicApp) : string :=
  "https://raw.githubusercontent.com/PreMiD/Presences/main/websites/"
    +:+ firstCharacter info +:+ "/" +:+ name info +:+ "/metadata.json".

(** What the function does with the response once [fetch] has resolved. *)
Definition statusOfResponse (res : Response) : option ActivityType :=
  if negb (ok res) then Some PLAYING
  else
    match json res with
    | None => Some PLAYING
    | Some metadata =>
        match categorize metadata with
        | Normal t => t
        | TypeError => Some PLAYING
        end
    end.

Definition determineStatusType (h : Host) (info : PublicApp)
  : Async (option ActivityType) :=
  let url := metadataUrl info in
  let* res := await (CallFetch url) (fetch h url) in
  ret (statusOfResponse res).

(** *** getApp *)

Definition withStatusType (app : PublicApp) (t : option ActivityType) : PublicApp :=
  {| id := id app; name := name app; icon := icon app;
     statusType := t; flags := flags app |}.

Definition getApp (h : Host) (applicationId : string) : Async PublicApp :=
  fun s =>
    match apps s !! applicationId with
    | Some app => Returned app s
    | None =>
        (let* application :=
           await (CallLookupRpcApp applicationId) (lookupRpcApp h applicationId) in
         let* activityType := determineStatusType h application in
         let application :=
           withStatusType application
             (if truthy (typeValue activityType) then activityType
              else settings.statusType (settings_store h)) in
         let* u := remember applicationId application in
         ret application) s
    end.

Definition getAppAsset (h : Host) (appId key : string) : Async string :=
  await (CallGetAsset appId key) (getAsset h appId key).

Definition isNumber (n : Z) (v : Value) : bool :=
  match v with
  | VNumber n' => n' =? n
  | _ => false
  end.

(** The number held by a value already tested truthy. *)
Definition numberOf (v : Value) : Z :=
  match v with
  | VNumber n => n
  | _ => 0
  end.

(** *** formatTime *)

Definition formatTime (seconds : Z) : string :=
  let minutes := seconds / 60 in
  let remainingSeconds := Z.rem seconds 60 in
  padStart2 (toString minutes) +:+ ":" +:+ padStart2 (toString remainingSeconds).

(** Zero-padded MM:SS, as the captions are meant to read: two digits of
    minutes, a colon, two digits of seconds. *)
Definition digit (n : Z) : ascii := ascii_of_N (48 + Z.to_N n).

Definition mmss (seconds : Z) : string :=
  String (digit (seconds / 600))
    (String (digit (seconds / 60 mod 10))
       (String ":"%char
          (String (digit (seconds mod 60 / 10))
             (String (digit (seconds mod 10)) "")))).

(** *** getActivity *)

(** [pmActivity.assets?.large_image ?? "guh"] and its sibling. *)
Definition largeImageKey (pmActivity : Activity) : string :=
  default "guh" (a ← assets pmActivity; large_image a).

Definition smallImageKey (pmActivity : Activity) : string :=
  default "guhh" (a ← assets pmActivity; small_image a).

(** [pmActivity.assets?.small_text || "hello there :3"] *)
Definition smallText (pmActivity : Activity) : string :=
  let v := ofString (a ← assets pmActivity; small_text a) in
  match v with
  | VString s => if truthy v then s else "hello there :3"
  | _ => "hello there :3"
  end.

(** [activity.assets.large_text = caption] *)
Definition setLargeText (caption : string) (activity : Obj) : Obj :=
  obj_set "assets"
    (VObject (obj_set "large_text" (VString caption)
                (spread (field "assets" (VObject activity)))))
    activity.

(** [Math.floor(Date.now() / 1000)] *)
Definition nowSeconds (h : Host) : Z := Date_now h / 1000.

(** The button block. *)
Definition copyButtons (h : Host) (appInfo : PublicApp) (pmActivity : Activity)
    (activity : Obj) : Obj :=
  match buttons pmActivity with
  | Some pmButtons =>
      if settings.showButtons (settings_store h) then
        if String.eqb (name appInfo) "YouTube"
           && settings.hideViewChannel (settings_store h) then
          let activity :=
            obj_set "buttons" (VArray [nth 0 (map VString pmButtons) VUndefined])
              activity in
          match metadata pmActivity with
          | Some pmMetadata =>
              match button_urls pmMetadata with
              | Some urls =>
                  if truthy (field "metadata" (VObject activity)) then
                    obj_set "metadata"
                      (VObject
                         (obj_set "button_urls"
                            (VArray [nth 0 (map VString urls) VUndefined])
                            (spread (field "metadata" (VObject activity)))))
                      activity
                  else activity
              | None => activity
              end
          | None => activity
          end
        else
          obj_set "metadata" (metadataValue (metadata pmActivity))
            (obj_set "buttons" (ofStrings pmButtons) activity)
      else activity
  | None => activity
  end.

(** The timestamp block. *)
Definition copyTimestamps (h : Host) (pmActivity : Activity) (activity : Obj) : Obj :=
  match timestamps pmActivity with
  | Some pmTimestamps =>
      let start := ofNumber (start pmTimestamps) in
      let end_ := ofNumber (end_ pmTimestamps) in
      if truthy start && truthy end_ then
        obj_set "timestamps" (timestampsValue pmTimestamps) activity
      else if truthy start then
        let activity :=
          if isNumber (code WATCHING) (field "type" (VObject activity)) then
            setLargeText
              (formatTime (nowSeconds h - numberOf start) +:+ " elapsed") activity
          else activity in
        obj_set "timestamps" (VObject [("start", start)]) activity
      else if truthy end_ then
        let activity :=
          if isNumber (code WATCHING) (field "type" (VObject activity)) then
            setLargeText
              (formatTime (numberOf end_ - nowSeconds h) +:+ " left") activity
          else activity in
        obj_set "timestamps"
          (VObject (obj_set "end" end_
                      (spread (field "timestamps" (VObject activity)))))
          activity
      else activity
  | None => activity
  end.

(** The final loop: [for (const k in activity)], skipping [type] and
    deleting every key whose value is falsy or of length zero. *)
Definition keep (kv : string * Value) : bool :=
  String.eqb (fst kv) "type"
  || negb (negb (truthy (snd kv)) || length_is_zero (snd kv)).

Definition prune (activity : Obj) : Obj := List.filter keep activity.

(** [appInfo.statusType || ActivityType.PLAYING] *)
Definition typeCode (appInfo : PublicApp) : Value :=
  if truthy (typeValue (statusType appInfo))
  then typeValue (statusType appInfo)
  else VNumber (code PLAYING).

(** The object literal [getActivity] starts from, given the two resolved
    asset images. *)
Definition initialActivity (appInfo : PublicApp) (pmActivity : Activity)
    (large small : string) : Obj :=
  [ ("application_id", VString (application_id pmActivity));
    ("name", VString (name appInfo));
    ("details", ofString (details pmActivity));
    ("state", ofString (state pmActivity));
    ("type", typeCode appInfo);
    ("flags", VNumber INSTANCE);
    ("assets",
      VObject [ ("large_image", VString large);
                ("small_image", VString small);
                ("small_text", VString (smallText pmActivity)) ]) ].

(** The assets of a Playing activity, with the branding caption. *)
Definition playingAssets (pmActivity : Activity) (large small : string) : Value :=
  VObject [ ("large_image", VString large);
            ("large_text", VString ("vcMiD v" +:+ version));
            ("small_image", VString small);
            ("small_text", VString (smallText pmActivity)) ].

(** The [if (activity.type === ActivityType.PLAYING)] block: the assets
    are resolved again and replaced, now with the branding caption. *)
Definition brand (h : Host) (pmActivity : Activity) (activity : Obj) : Async Obj :=
  if isNumber (code PLAYING) (field "type" (VObject activity)) then
    let* large := getAppAsset h (application_id pmActivity) (largeImageKey pmActivity) in
    let* small := getAppAsset h (application_id pmActivity) (smallImageKey pmActivity) in
    ret (obj_set "assets" (playingAssets pmActivity large small) activity)
  else ret activity.

(** [getActivity] answers [None] for [undefined]. *)
Definition getActivity (h : Host) (pmActivity : Activity) : Async (option Obj) :=
  let* appInfo := getApp h (application_id pmActivity) in
  if negb (truthy (VString (name appInfo))) || String.eqb (name appInfo) "PreMiD"
  then ret None
  else
    let* large := getAppAsset h (application_id pmActivity) (largeImageKey pmActivity) in
    let* small := getAppAsset h (application_id pmActivity) (smallImageKey pmActivity) in
    let activity := initialActivity appInfo pmActivity large small in
    let* activity := brand h pmActivity activity in
    let activity := copyButtons h appInfo pmActivity activity in
    let activity := copyTimestamps h pmActivity activity in
    ret (Some (prune activity)).

(** The object [getActivity] has assembled before the button block. *)
Definition assembled (appInfo : PublicApp) (pmActivity : Activity)
    (large small : string) (activity : Obj) : Prop :=
  let initial := initialActivity appInfo pmActivity large small in
  if isNumber (code PLAYING) (field "type" (VObject initial))
  then activity = obj_set "assets" (playingAssets pmActivity large small) initial
  else activity = initial.

(** Reading the synthesized object: [activity.assets.large_text]. *)
Definition largeText (activity : Obj) : Value :=
  field "large_text" (field "assets" (VObject activity)).

(** The payload with its [timestamps] replaced. *)
Definition withTimestamps (pmActivity : Activity) (ts : option Timestamps) : Activity :=
  {| application_id := application_id pmActivity; state := state pmActivity;
     details := details pmActivity; timestamps := ts;
     assets := assets pmActivity; buttons := buttons pmActivity;
     metadata := metadata pmActivity |}.

(** What a finished call produced, and the store it left. *)
Definition result {A} (o : Outcome A) : option A :=
  match o with
  | Returned a _ => Some a
  | Rejected _ => None
  end.

Definition final {A} (o : Outcome A) : Store :=
  match o with
  | Returned _ s => s
  | Rejected s => s
  end.

(** The store of a freshly loaded plugin. *)
Definition fresh : Store := {| apps := ∅; calls := [] |}.



(** What the final loop leaves of an optional string. *)
Definition kept (o : option string) : option Value :=
  match o with
  | Some s => if String.eqb s "" then None else Some (VString s)
  | None => None
  end.

(** The payload with its [assets.large_text] replaced. *)
Definition withLargeText (pmActivity : Activity) (caption : option string) : Activity :=
  {| application_id := application_id pmActivity; state := state pmActivity;
     details := details pmActivity; timestamps := timestamps pmActivity;
     assets :=
       match assets pmActivity with
       | Some a =>
           Some {| large_image := large_image a; large_text := caption;
                   small_image := small_image a; small_text := small_text a |}
       | None => None
       end;
     buttons := buttons pmActivity; metadata := metadata pmActivity |}.

(** *** The socket handlers installed by initShidd *)

Inductive ReadyState : Type := CONNECTING | OPEN | CLOSING | CLOSED.

(** A decoded frame. [data] is [None] when the frame carries none. *)
Record SocketMessage : Type := {
  type : string;
  data : option Activity;
}.

(** The action handed to [FluxDispatcher.dispatch]. *)
Inductive Action : Type :=
| LOCAL_ACTIVITY_UPDATE (activity : Value) (socketId : string).

(** [setActivity(activity)], with [undefined] for a suppressed activity. *)
Definition setActivity (activity : option Obj) : Action :=
  LOCAL_ACTIVITY_UPDATE
    match activity with
    | Some act => VObject act
    | None => VUndefined
    end
    "PreMiD".

(** [this.clearActivity()] *)
Definition clearActivity : Action := LOCAL_ACTIVITY_UPDATE VNull "PreMiD".

(** What one run of [ws.onmessage] did: the actions dispatched, the
    frames given to [ws.send], the store it left, and whether it ran to
    its end rather than throwing or rejecting. *)
Record Handled : Type := {
  dispatched : list Action;
  replies : list Value;
  storeAfter : Store;
  completed : bool;
}.

Definition threw (s : Store) : Handled :=
  {| dispatched := []; replies := []; storeAfter := s; completed := false |}.

(** [ws.onmessage]. The frame is [None] when [JSON.parse] throws on it;
    [readyState] is that of the socket [ws] names when the handler runs,
    and [user] is the user captured when the socket was set up. *)
Definition onmessage (h : Host) (readyState : ReadyState) (user : Value)
    (frame : option SocketMessage) (s : Store) : Handled :=
  match frame with
  | None => threw s
  | Some message =>
      if String.eqb (type message) "getCurrentUser" then
        match readyState with
        | CONNECTING => threw s
        | _ =>
            {| dispatched := [];
               replies := [VObject [("type", VString "currentUser"); ("user", user)]];
               storeAfter := s; completed := true |}
        end
      else if String.eqb (type message) "setActivity" then
        match data message with
        | None => threw s
        | Some pmActivity =>
            match getActivity h pmActivity s with
            | Returned activity s' =>
                {| dispatched := [setActivity activity]; replies := [];
                   storeAfter := s'; completed := true |}
            | Rejected s' => threw s'
            end
        end
      else if String.eqb (type message) "clearActivity" then
        {| dispatched := [clearActivity]; replies := [];
           storeAfter := s; completed := true |}
      else
        {| dispatched := []; replies := []; storeAfter := s; completed := true |}
  end.

(** *** Connection life cycle of the plugin object *)

Module shig.

(** What the plugin does to its surroundings, in order. *)
Inductive Effect : Type :=
| SocketClosed
| SocketOpened (url : string)
| Dispatched (action : Action)
| ErrorLogged (message : string)
| Notified (title : string).

(** The module-level [ws] (whether one has been created) and
    [isReconnecting], with the effects so far. *)
Record Session : Type := {
  ws : bool;
  isReconnecting : bool;
  effects : list Effect;
}.

Definition emit (e : list Effect) (st : Session) : Session :=
  {| ws := ws st; isReconnecting := isReconnecting st; effects := effects st ++ e |}.

Definition setReconnecting (b : bool) (st : Session) : Session :=
  {| ws := ws st; isReconnecting := b; effects := effects st |}.

(** [stop()] *)
Definition stop (st : Session) : Session := emit [Dispatched clearActivity] st.

(** [initShidd()] up to its [await]: the old socket is closed, a new one
    opened and the handlers installed. *)
Definition initShidd (st : Session) : Session :=
  let st := if ws st then emit [SocketClosed] st else st in
  {| ws := true; isReconnecting := isReconnecting st;
     effects := effects st ++ [SocketOpened "ws://127.0.0.1:4020"] |}.

(** [start()] *)
Definition start (st : Session) : Session := initShidd st.

(** [initShidd()] after its [await]: [connectionSuccessful] is whether
    [ws] was open when the one-second timer fired. *)
Definition afterTimeout (connectionSuccessful : bool) (st : Session) : Session :=
  if negb connectionSuccessful then
    let st := emit [ErrorLogged "Failed to connect to PreMiD."] st in
    if isReconnecting st then
      setReconnecting false (emit [Notified "[PreMiD:Bridge] Connection failed"] st)
    else st
  else st.

(** The toolbox action "Reconnect PreMiD". *)
Definition reconnect (st : Session) : Session :=
  start (stop (setReconnecting true st)).

(** The notification's [onClick]. *)
Definition onClick (st : Session) : Session :=
  start (setReconnecting true st).

(** [ws.onclose] *)
Definition onclose (st : Session) : Session := emit [Dispatched clearActivity] st.

Inductive Event : Type :=
| Start
| Stop
| Reconnect
| Timeout (connectionSuccessful : bool)
| Click
| Close.

Definition step (st : Session) (e : Event) : Session :=
  match e with
  | Start => start st
  | Stop => stop st
  | Reconnect => reconnect st
  | Timeout connectionSuccessful => afterTimeout connectionSuccessful st
  | Click => onClick st
  | Close => onclose st
  end.

Definition run (events : list Event) (st : Session) : Session :=
  fold_left step events st.

(** The session of a plugin that has just been loaded. *)
Definition loaded : Session := {| ws := false; isReconnecting := false; effects := [] |}.

Definition isNotified (e : Effect) : bool :=
  match e with
  | Notified _ => true
  | _ => false
  end.

Definition notifications (st : Session) : nat :=
  length (List.filter isNotified (effects st)).

Definition isRequest (e : Event) : bool :=
  match e with
  | Reconnect | Click => true
  | _ => false
  end.

Definition requests (events : list Event) : nat :=
  length (List.filter isRequest events).

(** One notification is still owed while the flag is up. *)
Definition pending (st : Session) : nat :=
  if isReconnecting st then 1%nat else 0%nat.

End shig.

End Silly.

(** ** src/vrcText.ts *)

Module VrcText.

(** Chat messages are JavaScript strings: sequences of UTF-16 code units.
    [trim] depends on code units outside ASCII, so they are kept as
    numbers here. *)
Abbreviation jsstring := (list N).

(** A source literal as code units. *)
Definition lit (s : string) : jsstring :=
  map N_of_ascii (list_ascii_of_string s).

(** WhiteSpace and LineTerminator code units of ECMAScript. *)
Definition isWhiteSpace (c : N) : bool :=
  ((9 <=? c) && (c <=? 13)
   || (c =? 32) || (c =? 160) || (c =? 5760)
   || (8192 <=? c) && (c <=? 8202)
   || (c =? 8232) || (c =? 8233) || (c =? 8239) || (c =? 8287)
   || (c =? 12288) || (c =? 65279))%N.

Fixpoint trimStart (s : jsstring) : jsstring :=
  match s with
  | c :: s' => if isWhiteSpace c then trimStart s' else s
  | [] => []
  end.

Definition trim (s : jsstring) : jsstring :=
  rev (trimStart (rev (trimStart s))).

Fixpoint startsWith (p s : jsstring) : bool :=
  match p, s with
  | [], _ => true
  | a :: p', b :: s' => (a =? b)%N && startsWith p' s'
  | _ :: _, [] => false
  end.

(** [s.replace(p, '')] with a string pattern: the first occurrence of [p]
    is removed, the rest is left alone. *)
Fixpoint replace (p : jsstring) (s : jsstring) : jsstring :=
  if startsWith p s then drop (length p) s
  else
    match s with
    | [] => []
    | c :: s' => c :: replace p s'
    end.

(** [s.includes(p)] *)
Fixpoint includes (p : jsstring) (s : jsstring) : bool :=
  startsWith p s ||
  match s with
  | [] => false
  | _ :: s' => includes p s'
  end.

Inductive ReadyState : Type := CONNECTING | OPEN | CLOSING | CLOSED.

Record BridgeMsg : Type := {
  content : jsstring;
  sendNow : bool;
  popNoise : bool;
}.

(** What is handed to [ws.send]: a bare control string, or
    [JSON.stringify(bridgeMsg)], kept as the message it encodes. *)
Inductive Frame : Type :=
| Text (s : string)
| Json (bridgeMsg : BridgeMsg).

Module MessageObject.
Record t : Type := { content : jsstring }.
End MessageObject.

(** The plugin's surroundings while a handler runs: the socket's state
    and [settings.store.override]. *)
Record Bridge : Type := {
  readyState : ReadyState;
  override : bool;
}.

(** What a handler has done so far: the frames given to [ws.send] and
    whether [stop()] ran. *)
Record Trace : Type := {
  sent : list Frame;
  stopped : bool;
}.

(** A handler step: it completes with a value or throws, and extends the
    trace either way. *)
Definition Handler (A : Type) : Type := Bridge -> Trace -> option A * Trace.

Definition ret {A} (a : A) : Handler A := fun _ t => (Some a, t).

Definition bind {A B} (m : Handler A) (f : A -> Handler B) : Handler B :=
  fun b t =>
    match m b t with
    | (Some a, t') => f a b t'
    | (None, t') => (None, t')
    end.

Notation "m ;; k" := (bind m (fun _ => k))
  (at level 100, k at level 200, right associativity).

(** [ws.send(data)]: an [InvalidStateError] while the socket is still
    connecting; otherwise the data is handed to the socket, which
    transmits it when open and drops it when closing or closed. *)
Definition ws_send (data : Frame) : Handler unit :=
  fun b t =>
    match readyState b with
    | CONNECTING => (None, t)
    | _ => (Some tt, {| sent := sent t ++ [data]; stopped := stopped t |})
    end.

Definition sendTyping (isTyping : bool) : Handler unit :=
  ws_send (Text (if isTyping then "typing:true" else "typing:false")).

(** [sendWsMessage(msg, pop = true, now = true)] *)
Definition sendWsMessage (msg : jsstring) (pop : bool) (now : bool) : Handler unit :=
  let bridgeMsg := {| content := msg; sendNow := now; popNoise := pop |} in
  ws_send (Json bridgeMsg) ;;
  sendTyping false.

(** [stop()]: the command is unregistered and the listener removed. *)
Definition stop : Handler unit :=
  fun _ t => (Some tt, {| sent := sent t; stopped := true |}).

(** [onSend] returns the message as the handler leaves it. *)
Definition onSend (msg : MessageObject.t) : Handler MessageObject.t :=
  fun b =>
    match readyState b with
    | CLOSED => (stop ;; ret msg) b
    | _ =>
        let content := replace (lit "=/=") (replace (lit "==") (MessageObject.content msg)) in
        let trim := trim (MessageObject.content msg) in
        (if override b then
           if startsWith (lit "==") trim then
             ret {| MessageObject.content := content |}
           else
             sendTyping false ;;
             sendWsMessage content true true ;;
             ret {| MessageObject.content := lit "" |}
         else if startsWith (lit "==") trim then
           sendTyping false ;;
           sendWsMessage content true true ;;
           ret {| MessageObject.content := lit "" |}
         else if startsWith (lit "=/=") trim then
           sendTyping false ;;
           sendWsMessage content false true ;;
           ret {| MessageObject.content := lit "" |}
         else ret msg) b
    end.

(** The frames of a routed message: typing off, the message, typing off. *)
Definition routed (content : jsstring) (pop : bool) : list Frame :=
  [ Text "typing:false";
    Json {| content := content; sendNow := true; popNoise := pop |};
    Text "typing:false" ].

(** A handler run from an empty trace. *)
Definition idle : Trace := {| sent := []; stopped := false |}.

(** [flux.DRAFT_CHANGE(d)], with [draft] for [d.draft]. *)
Definition DRAFT_CHANGE (draft : jsstring) : Handler unit :=
  fun b =>
    match readyState b with
    | CLOSED => ret tt b
    | _ => (if startsWith (lit "==") draft then sendTyping true else ret tt) b
    end.

(** Whether a frame is a bridge message. *)
Definition isJson (f : Frame) : bool :=
  match f with
  | Json _ => true
  | Text _ => false
  end.

End VrcText.

(** ** Concrete scenarios

    Hosts and payloads on which the properties below are exercised. *)

Module Scenario.
Import Silly.

Definition app (n : string) : PublicApp :=
  {| id := "463097721130188830"; name := n; icon := "icon";
     statusType := None; flags := 0 |}.

(** A host that knows one application called [n], answers every metadata
    fetch with [res], resolves every asset key, and whose clock shows
    [now] seconds. *)
Definition host (n : string) (res : option Response) (st : settings.store)
    (now : Z) : Host :=
  {| lookupRpcApp := fun _ => Some (app n);
     fetch := fun _ => res;
     getAsset := fun _ key => Some ("mp:external/" +:+ key);
     Date_now := now * 1000 + 417;
     settings_store := st |}.

Definition options (buttons hide : bool) (fallback : option ActivityType)
  : settings.store :=
  {| settings.showButtons := buttons; settings.manualShare := false;
     settings.hideViewChannel := hide; settings.statusType := fallback |}.

Definition notFound : Response := {| ok := false; json := None |}.

Definition document (doc : Value) : Response := {| ok := true; json := Some doc |}.

Definition videosDoc : Value :=
  VObject [("category", VString "videos"); ("tags", VArray [VString "video"])].

(** A payload with nothing but an application id, a state and timestamps. *)
Definition payload (ts : option Timestamps) : Activity :=
  {| application_id := "463097721130188830"; state := Some "Browsing";
     details := None; timestamps := ts; assets := None; buttons := None;
     metadata := None |}.

(** A payload whose optional fields are all present and empty. *)
Definition blank : Activity :=
  {| application_id := "463097721130188830"; state := Some "";
     details := Some ""; timestamps := Some {| start := None; end_ := None |};
     assets := Some {| large_image := Some ""; large_text := Some "";
                       small_image := Some ""; small_text := Some "" |};
     buttons := Some []; metadata := Some {| button_urls := Some [] |} |}.

(** A payload with two buttons and their URLs. *)
Definition withButtons : Activity :=
  {| application_id := "463097721130188830"; state := Some "Browsing";
     details := Some "Home"; timestamps := None; assets := None;
     buttons := Some ["Watch"; "Subscribe"];
     metadata := Some {| button_urls := Some ["https://youtu.be/x"; "https://youtube.com/c"] |} |}.

Definition now : Z := 1700000000.

End Scenario.

(** * Properties *)

(** ** Objects *)

Section Objects.

Implicit Types (o : Obj) (k : string) (v : Value).

Lemma obj_get_set_eq k v o : obj_get k (obj_set k v o) = Some v.
Proof.
  induction o as [|[k' v'] o IH]; simpl.
  - now rewrite String.eqb_refl.
  - destruct (String.eqb k' k) eqn:E; simpl; rewrite E; auto.
Qed.

Lemma obj_get_set_ne k k' v o :
  String.eqb k k' = false -> obj_get k' (obj_set k v o) = obj_get k' o.
Proof.
  intros Hne. induction o as [|[k0 v0] o IH]; simpl.
  - now rewrite Hne.
  - destruct (String.eqb k0 k) eqn:E; simpl.
    + apply String.eqb_eq in E. subst k0. now rewrite Hne.
    + now rewrite IH.
Qed.

Lemma obj_get_filter_Some (f : string * Value -> bool) k v o :
  obj_get k (List.filter f o) = Some v -> f (k, v) = true.
Proof.
  induction o as [|[k' v'] o IH]; simpl; [discriminate|].
  destruct (f (k', v')) eqn:F; simpl; auto.
  destruct (String.eqb k' k) eqn:E; auto.
  intros [= <-]. apply String.eqb_eq in E. now subst.
Qed.

Lemma obj_get_filter_None (f : string * Value -> bool) k o :
  obj_get k o = None -> obj_get k (List.filter f o) = None.
Proof.
  induction o as [|[k' v'] o IH]; simpl; auto.
  destruct (String.eqb k' k) eqn:E; [discriminate|].
  intros H. destruct (f (k', v')); simpl; rewrite ?E; auto.
Qed.

Lemma obj_get_filter_kept (f : string * Value -> bool) k v o :
  obj_get k o = Some v -> f (k, v) = true -> obj_get k (List.filter f o) = Some v.
Proof.
  induction o as [|[k' v'] o IH]; simpl; [discriminate|].
  destruct (String.eqb k' k) eqn:E.
  - intros [= ->] F. apply String.eqb_eq in E. subst k'.
    rewrite F. simpl. now rewrite String.eqb_refl.
  - intros H F. destruct (f (k', v')); simpl; rewrite ?E; auto.
Qed.

End Objects.

(** ** Application resolution *)

Section Resolution.

Import Silly.

Lemma getApp_cached h applicationId s app :
  result (getApp h applicationId s) = Some app ->
  apps (final (getApp h applicationId s)) !! applicationId = Some app.
Proof.
  unfold getApp.
  destruct (apps s !! applicationId) as [cached|] eqn:Hit; simpl.
  - now intros [= <-].
  - unfold bind, await, determineStatusType, remember, ret; simpl.
    destruct (lookupRpcApp h applicationId) as [application|]; [|discriminate].
    destruct (fetch h (metadataUrl application)) as [res|]; [|discriminate].
    simpl. intros [= <-]. apply lookup_insert_eq.
Qed.

(** C8. Resolving an application identifier a second time, on any host
    state, returns the descriptor of the first resolution and leaves the
    store as it was: the cache is unchanged and the log of external calls
    has not grown, so the answer came from the cache. *)
Theorem getApp_idempotent h h' applicationId s app :
  result (getApp h applicationId s) = Some app ->
  getApp h' applicationId (final (getApp h applicationId s))
  = Returned app (final (getApp h applicationId s)).
Proof.
  intros H. apply getApp_cached in H.
  unfold getApp at 1. now rewrite H.
Qed.

Lemma getApp_idempotent_witness :
  let h := Scenario.host "YouTube" (Some (Scenario.document Scenario.videosDoc))
             (Scenario.options false false None) Scenario.now in
  let h' := Scenario.host "Netflix" None
              (Scenario.options true true (Some COMPETING)) Scenario.now in
  let first := getApp h "463097721130188830" fresh in
  result first = Some (withStatusType (Scenario.app "YouTube") (Some WATCHING))
  /\ calls (final first)
     = [CallLookupRpcApp "463097721130188830";
        CallFetch "https://raw.githubusercontent.com/PreMiD/Presences/main/websites/Y/YouTube/metadata.json"]
  /\ getApp h' "463097721130188830" (final first)
     = Returned (withStatusType (Scenario.app "YouTube") (Some WATCHING)) (final first).
Proof.
  intros h h' first.
  assert (H : result first = Some (withStatusType (Scenario.app "YouTube") (Some WATCHING)))
    by (vm_compute; reflexivity).
  split; [exact H|]. split; [vm_compute; reflexivity|].
  exact (getApp_idempotent h h' "463097721130188830" fresh _ H).
Defined.

(** X2. On a cache miss the descriptor's category is the inferred one only
    when that is truthy: Listening, Watching or Competing. An inferred
    Playing, whose code is 0, is replaced by the configured fallback just
    as a missing inference is. *)
Lemma getApp_statusType h applicationId s application res :
  apps s !! applicationId = None ->
  lookupRpcApp h applicationId = Some application ->
  fetch h (metadataUrl application) = Some res ->
  result (getApp h applicationId s)
  = Some (withStatusType application
            match statusOfResponse res with
            | Some PLAYING | None => settings.statusType (settings_store h)
            | inferred => inferred
            end).
Proof.
  intros Hmiss Happ Hres. unfold getApp. rewrite Hmiss.
  unfold bind, await, determineStatusType, remember, ret.
  rewrite Happ. simpl. rewrite Hres. simpl.
  now destruct (statusOfResponse res) as [[]|].
Qed.

End Resolution.

(** ** Category inference *)

Section Inference.

Import Silly.

Lemma existsb_isString x l :
  existsb (isString x) l = true <-> In (VString x) l.
Proof.
  rewrite existsb_exists. split.
  - intros (v & Hin & Hv). destruct v; try discriminate.
    simpl in Hv. apply String.eqb_eq in Hv. now subst.
  - intros Hin. exists (VString x). split; [assumption|].
    simpl. apply String.eqb_refl.
Qed.

Lemma existsb_isMediaTag l :
  existsb isMediaTag l = true
  <-> exists tag, In tag ["video"; "media"; "streaming"] /\ In (VString tag) l.
Proof.
  rewrite existsb_exists. unfold isMediaTag. split.
  - intros (v & Hin & Hv). rewrite existsb_exists in Hv.
    destruct Hv as (tag & Htag & Hv). exists tag. split; [assumption|].
    destruct v; try discriminate. simpl in Hv.
    apply String.eqb_eq in Hv. now subst.
  - intros (tag & Htag & Hin). exists (VString tag). split; [assumption|].
    rewrite existsb_exists. exists tag. split; [assumption|].
    simpl. apply String.eqb_refl.
Qed.

Lemma isString_false x v : v <> VString x -> isString x v = false.
Proof.
  destruct v; simpl; auto. intros Hne.
  apply String.eqb_neq. congruence.
Qed.

Lemma determineStatusType_result h info s res :
  fetch h (metadataUrl info) = Some res ->
  result (determineStatusType h info s) = Some (statusOfResponse res).
Proof.
  intros Hres. unfold determineStatusType, bind, await, ret.
  now rewrite Hres.
Qed.

(** What a decoded document is mapped to, by the shape of its [category]
    and [tags]. *)
Lemma categorize_socials doc l :
  field "category" doc = VString "socials" -> field "tags" doc = VArray l ->
  categorize doc
  = Normal (if existsb (isString "video") l then Some WATCHING else None).
Proof.
  intros Hc Ht. destruct doc; try discriminate.
  unfold categorize, getProp. rewrite Hc, Ht. simpl.
  now destruct (existsb _ l).
Qed.

Lemma categorize_socials_text doc text :
  field "category" doc = VString "socials" -> field "tags" doc = VString text ->
  categorize doc
  = Normal (if str_includes "video" text then Some WATCHING else None).
Proof.
  intros Hc Ht. destruct doc; try discriminate.
  unfold categorize, getProp. rewrite Hc, Ht. simpl.
  now destruct (str_includes _ text).
Qed.

Lemma categorize_socials_throws doc :
  field "category" doc = VString "socials" ->
  (forall l, field "tags" doc <> VArray l) ->
  (forall text, field "tags" doc <> VString text) ->
  categorize doc = TypeError.
Proof.
  intros Hc Ha Ht. destruct doc; try discriminate.
  unfold categorize, getProp. rewrite Hc.
  destruct (field "tags" (VObject fields)) eqn:E; simpl; auto.
  - now destruct (Ht s).
  - now destruct (Ha items).
Qed.

Lemma categorize_anime doc l :
  field "category" doc = VString "anime" -> field "tags" doc = VArray l ->
  categorize doc
  = Normal (if existsb isMediaTag l then Some WATCHING else None).
Proof.
  intros Hc Ht. destruct doc; try discriminate.
  unfold categorize, getProp. rewrite Hc, Ht. simpl.
  now destruct (existsb _ l).
Qed.

Lemma categorize_anime_throws doc :
  field "category" doc = VString "anime" ->
  (forall l, field "tags" doc <> VArray l) ->
  categorize doc = TypeError.
Proof.
  intros Hc Ha. destruct doc; try discriminate.
  unfold categorize, getProp. rewrite Hc.
  destruct (field "tags" (VObject fields)) eqn:E; simpl; auto.
  now destruct (Ha items).
Qed.

Lemma categorize_music doc :
  field "category" doc = VString "music" -> categorize doc = Normal (Some LISTENING).
Proof.
  intros Hc. destruct doc; try discriminate.
  unfold categorize, getProp. now rewrite Hc.
Qed.

Lemma categorize_videos doc :
  field "category" doc = VString "videos" -> categorize doc = Normal (Some WATCHING).
Proof.
  intros Hc. destruct doc; try discriminate.
  unfold categorize, getProp. now rewrite Hc.
Qed.

Lemma categorize_other doc :
  doc <> VNull -> doc <> VUndefined ->
  ~ In (field "category" doc)
      [VString "socials"; VString "anime"; VString "music"; VString "videos"] ->
  categorize doc = Normal None.
Proof.
  intros Hn Hu Hc. simpl in Hc.
  assert (H1 : isString "socials" (field "category" doc) = false)
    by (apply isString_false; intros E; rewrite E in Hc; tauto).
  assert (H2 : isString "anime" (field "category" doc) = false)
    by (apply isString_false; intros E; rewrite E in Hc; tauto).
  assert (H3 : isString "music" (field "category" doc) = false)
    by (apply isString_false; intros E; rewrite E in Hc; tauto).
  assert (H4 : isString "videos" (field "category" doc) = false)
    by (apply isString_false; intros E; rewrite E in Hc; tauto).
  unfold categorize, getProp.
  destruct doc; try congruence; now rewrite H1, H2, H3, H4.
Qed.

(** C4, as amended. Once the metadata document has been fetched: a
    non-success response gives Playing; a body that does not decode gives
    Playing; a decoded document gives Watching for category "socials" with a
    "video" entry in its tag list, Watching for "anime" with a tag among
    video, media and streaming, Listening for "music", Watching for
    "videos", and no category for a tag list without such an entry or any
    other category. A decoded document on which the mapping itself throws
    also gives Playing: the [null] document, "socials" whose [tags] is
    neither a list nor a string, "anime" whose [tags] is not a list. For
    "socials" with a string as [tags] the test is a substring test. *)
Theorem determineStatusType_mapping h info s res :
  fetch h (metadataUrl info) = Some res ->
  exists inferred : option ActivityType,
    result (determineStatusType h info s) = Some inferred /\
    (ok res = false -> inferred = Some PLAYING) /\
    (ok res = true -> json res = None -> inferred = Some PLAYING) /\
    (forall doc, ok res = true -> json res = Some doc ->
       let category := field "category" doc in
       let tags := field "tags" doc in
       (forall l, category = VString "socials" -> tags = VArray l ->
          (In (VString "video") l -> inferred = Some WATCHING) /\
          (~ In (VString "video") l -> inferred = None)) /\
       (forall l, category = VString "anime" -> tags = VArray l ->
          ((exists tag, In tag ["video"; "media"; "streaming"] /\ In (VString tag) l) ->
           inferred = Some WATCHING) /\
          (~ (exists tag, In tag ["video"; "media"; "streaming"] /\ In (VString tag) l) ->
           inferred = None)) /\
       (category = VString "music" -> inferred = Some LISTENING) /\
       (category = VString "videos" -> inferred = Some WATCHING) /\
       (doc <> VNull -> doc <> VUndefined ->
        ~ In category
            [VString "socials"; VString "anime"; VString "music"; VString "videos"] ->
        inferred = None) /\
       (doc = VNull -> inferred = Some PLAYING) /\
       (category = VString "socials" ->
        (forall l, tags <> VArray l) -> (forall text, tags <> VString text) ->
        inferred = Some PLAYING) /\
       (forall text, category = VString "socials" -> tags = VString text ->
        inferred = if str_includes "video" text then Some WATCHING else None) /\
       (category = VString "anime" -> (forall l, tags <> VArray l) ->
        inferred = Some PLAYING)).
Proof.
  intros Hres. exists (statusOfResponse res).
  split; [now apply determineStatusType_result|].
  unfold statusOfResponse.
  split; [now intros ->|]. split; [now intros -> ->|].
  intros doc -> ->. simpl negb. cbv iota.
  repeat match goal with |- _ /\ _ => split end.
  - intros l Hc Ht. rewrite (categorize_socials doc l) by assumption.
    split; intros Hin.
    + apply existsb_isString in Hin. now rewrite Hin.
    + destruct (existsb (isString "video") l) eqn:E; [|reflexivity].
      apply existsb_isString in E. contradiction.
  - intros l Hc Ht. rewrite (categorize_anime doc l) by assumption.
    split; intros Hin.
    + apply existsb_isMediaTag in Hin. now rewrite Hin.
    + destruct (existsb isMediaTag l) eqn:E; [|reflexivity].
      apply existsb_isMediaTag in E. contradiction.
  - intros Hc. now rewrite categorize_music.
  - intros Hc. now rewrite categorize_videos.
  - intros Hn Hu Hc. now rewrite categorize_other.
  - now intros ->.
  - intros Hc Ha Ht. now rewrite categorize_socials_throws.
  - intros text Hc Ht. now rewrite (categorize_socials_text doc text).
  - intros Hc Ha. now rewrite categorize_anime_throws.
Qed.

Lemma determineStatusType_mapping_witness :
  let h := Scenario.host "YouTube" (Some (Scenario.document Scenario.videosDoc))
             (Scenario.options false false None) Scenario.now in
  fetch h (metadataUrl (Scenario.app "YouTube"))
  = Some (Scenario.document Scenario.videosDoc)
  /\ result (determineStatusType h (Scenario.app "YouTube") fresh) = Some (Some WATCHING).
Proof.
  intros h. split; [reflexivity|].
  destruct (determineStatusType_mapping h (Scenario.app "YouTube") fresh
              (Scenario.document Scenario.videosDoc) eq_refl)
    as (inferred & Hrun & _ & _ & Hdoc).
  destruct (Hdoc Scenario.videosDoc eq_refl eq_refl)
    as (_ & _ & _ & Hvideos & _).
  rewrite Hrun, (Hvideos eq_refl). reflexivity.
Defined.

(** C4 as stated fails on a document that decodes but has category
    "socials" and no [tags]: it matches none of the four rows, yet the
    answer is Playing, not the unset category. *)
Lemma determineStatusType_socials_without_tags :
  let doc := VObject [("category", VString "socials")] in
  let h := Scenario.host "Twitter" (Some (Scenario.document doc))
             (Scenario.options false false None) Scenario.now in
  fetch h (metadataUrl (Scenario.app "Twitter")) = Some (Scenario.document doc)
  /\ field "category" doc = VString "socials"
  /\ field "tags" doc = VUndefined
  /\ result (determineStatusType h (Scenario.app "Twitter") fresh) = Some (Some PLAYING)
  /\ result (determineStatusType h (Scenario.app "Twitter") fresh) <> Some None.
Proof.
  intros doc h. repeat split; try reflexivity.
  vm_compute. discriminate.
Qed.

End Inference.

(** ** Activity synthesis *)

Section Synthesis.

Import Silly.

Lemma result_bind {A B} (m : Async A) (f : A -> Async B) s b :
  result (bind m f s) = Some b ->
  exists a, result (m s) = Some a /\ result (f a (final (m s))) = Some b.
Proof.
  unfold bind. destruct (m s) as [a s'|s']; simpl; [|discriminate].
  intros H. now exists a.
Qed.

Lemma result_await {A} c (answer : option A) s a :
  result (await c answer s) = Some a -> answer = Some a.
Proof.
  unfold await. destruct answer; simpl; [|discriminate]. now intros [= <-].
Qed.

Lemma brand_result h pm appInfo large small s activity :
  getAsset h (application_id pm) (largeImageKey pm) = Some large ->
  getAsset h (application_id pm) (smallImageKey pm) = Some small ->
  result (brand h pm (initialActivity appInfo pm large small) s) = Some activity ->
  assembled appInfo pm large small activity.
Proof.
  intros Hl Hs. unfold brand, assembled. cbv zeta.
  destruct (isNumber _ _).
  - unfold getAppAsset, bind, await, ret. rewrite Hl, Hs. simpl. now intros [= <-].
  - unfold ret. simpl. now intros [= <-].
Qed.

(** Every activity that [getActivity] returns is the pruned outcome of
    the button and timestamp blocks on the assembled object. *)
Lemma getActivity_returned h pm s act :
  result (getActivity h pm s) = Some (Some act) ->
  exists appInfo large small activity,
    result (getApp h (application_id pm) s) = Some appInfo
    /\ name appInfo <> "" /\ name appInfo <> "PreMiD"
    /\ assembled appInfo pm large small activity
    /\ act = prune (copyTimestamps h pm (copyButtons h appInfo pm activity)).
Proof.
  unfold getActivity. intros H.
  apply result_bind in H as (appInfo & Happ & H).
  destruct (negb (truthy (VString (name appInfo))) || String.eqb (name appInfo) "PreMiD")
    eqn:Hname; [discriminate|].
  apply orb_false_elim in Hname as [Hempty Hsentinel].
  apply result_bind in H as (large & Hl & H).
  apply result_bind in H as (small & Hs & H).
  apply result_bind in H as (activity & Hb & H).
  apply result_await in Hl. apply result_await in Hs.
  apply brand_result in Hb; [|assumption..].
  exists appInfo, large, small, activity.
  split; [assumption|]. split.
  { intros E. rewrite E in Hempty. discriminate. }
  split.
  { intros E. rewrite E in Hsentinel. discriminate. }
  split; [assumption|].
  unfold ret in H. simpl in H. congruence.
Qed.

(** X28. Synthesis does return an activity once the application resolves
    to a publishable name and both asset keys resolve. *)
Lemma getActivity_returns h pm s appInfo large small :
  result (getApp h (application_id pm) s) = Some appInfo ->
  name appInfo <> "" -> name appInfo <> "PreMiD" ->
  getAsset h (application_id pm) (largeImageKey pm) = Some large ->
  getAsset h (application_id pm) (smallImageKey pm) = Some small ->
  exists act, result (getActivity h pm s) = Some (Some act).
Proof.
  intros Happ Hne Hns Hl Hs. unfold getActivity, bind.
  destruct (getApp h (application_id pm) s) as [a s1|s1]; [|discriminate].
  simpl in Happ. injection Happ as ->.
  apply String.eqb_neq in Hne, Hns. simpl. rewrite Hne, Hns. simpl.
  unfold brand, getAppAsset, bind, await, ret. rewrite Hl, Hs.
  destruct (isNumber _ _); simpl; eauto.
Qed.

(** C7. When the application identifier resolves to a descriptor whose
    name is empty or is the sentinel "PreMiD", synthesis returns
    [undefined] whatever else the payload holds; nothing is assembled and
    no asset is looked up, the store being the one resolution left. *)
Theorem getActivity_suppressed h pm s appInfo :
  result (getApp h (application_id pm) s) = Some appInfo ->
  name appInfo = "" \/ name appInfo = "PreMiD" ->
  getActivity h pm s = Returned None (final (getApp h (application_id pm) s)).
Proof.
  intros Happ Hname. unfold getActivity, bind.
  destruct (getApp h (application_id pm) s) as [a s'|s']; [|discriminate].
  simpl in Happ. injection Happ as ->. simpl.
  destruct Hname as [-> | ->]; reflexivity.
Qed.

Lemma getActivity_suppressed_witness :
  let h := Scenario.host "PreMiD" (Some Scenario.notFound)
             (Scenario.options true true (Some WATCHING)) Scenario.now in
  let pm := Scenario.payload (Some {| start := Some 5; end_ := Some 9 |}) in
  result (getApp h (application_id pm) fresh)
  = Some (withStatusType (Scenario.app "PreMiD") (Some WATCHING))
  /\ result (getActivity h pm fresh) = Some None.
Proof.
  intros h pm.
  assert (H : result (getApp h (application_id pm) fresh)
              = Some (withStatusType (Scenario.app "PreMiD") (Some WATCHING)))
    by (vm_compute; reflexivity).
  split; [exact H|].
  rewrite (getActivity_suppressed h pm fresh _ H (or_intror eq_refl)).
  reflexivity.
Defined.

(** *** What each block leaves alone *)

Lemma typeCode_code appInfo :
  typeCode appInfo = VNumber (code (default PLAYING (statusType appInfo))).
Proof. unfold typeCode. now destruct (statusType appInfo) as [[]|]. Qed.

Lemma assembled_get appInfo pm large small activity k :
  assembled appInfo pm large small activity ->
  String.eqb "assets" k = false ->
  obj_get k activity = obj_get k (initialActivity appInfo pm large small).
Proof.
  unfold assembled. cbv zeta. intros H Hk.
  destruct (isNumber _ _); subst activity; [|reflexivity].
  now apply obj_get_set_ne.
Qed.

Lemma assembled_type appInfo pm large small activity :
  assembled appInfo pm large small activity ->
  obj_get "type" activity = Some (typeCode appInfo).
Proof. intros H. now rewrite (assembled_get _ _ _ _ _ "type" H). Qed.

Lemma copyButtons_get h appInfo pm activity k :
  String.eqb "buttons" k = false -> String.eqb "metadata" k = false ->
  obj_get k (copyButtons h appInfo pm activity) = obj_get k activity.
Proof.
  intros Hb Hm. unfold copyButtons.
  repeat match goal with
         | |- context [match ?x with _ => _ end] => destruct x
         end;
    rewrite ?obj_get_set_ne by assumption; reflexivity.
Qed.

Lemma setLargeText_get caption activity k :
  String.eqb "assets" k = false ->
  obj_get k (setLargeText caption activity) = obj_get k activity.
Proof. intros Hk. unfold setLargeText. now apply obj_get_set_ne. Qed.

Lemma copyTimestamps_get h pm activity k :
  String.eqb "timestamps" k = false -> String.eqb "assets" k = false ->
  obj_get k (copyTimestamps h pm activity) = obj_get k activity.
Proof.
  intros Ht Ha. unfold copyTimestamps.
  repeat match goal with
         | |- context [match ?x with _ => _ end] => destruct x
         end;
    rewrite ?obj_get_set_ne, ?setLargeText_get by assumption; reflexivity.
Qed.

Lemma prune_type activity : obj_get "type" (prune activity) = obj_get "type" activity.
Proof.
  unfold prune. induction activity as [|[k v] o IH]; simpl; [reflexivity|].
  unfold keep at 1. simpl.
  destruct (String.eqb k "type") eqn:E; simpl.
  - now rewrite E.
  - destruct (negb _); simpl; rewrite ?E; assumption.
Qed.

Lemma keep_other k v :
  k <> "type" -> keep (k, v) = true -> truthy v = true /\ length_is_zero v = false.
Proof.
  intros Hk. unfold keep. simpl.
  apply String.eqb_neq in Hk. rewrite Hk. simpl.
  destruct (truthy v), (length_is_zero v); simpl; intros; (discriminate || auto).
Qed.

(** C2. In every activity that synthesis returns, each key other than
    [type] holds a truthy value of non-zero length -- a key whose value was
    falsy (empty string, zero, undefined) or empty is gone -- while [type]
    is always there, also when it is the code 0 of Playing. *)
Theorem getActivity_pruned h pm s act :
  result (getActivity h pm s) = Some (Some act) ->
  (forall k v, k <> "type" -> obj_get k act = Some v ->
     truthy v = true /\ length_is_zero v = false)
  /\ (exists t, obj_get "type" act = Some (VNumber (code t)))
  /\ (forall appInfo, result (getApp h (application_id pm) s) = Some appInfo ->
      statusType appInfo = Some PLAYING \/ statusType appInfo = None ->
      obj_get "type" act = Some (VNumber 0)).
Proof.
  intros H.
  apply getActivity_returned in H
    as (appInfo & large & small & activity & Happ & _ & _ & Hact & ->).
  assert (Htype : obj_get "type"
                    (prune (copyTimestamps h pm (copyButtons h appInfo pm activity)))
                  = Some (typeCode appInfo)).
  { rewrite prune_type, copyTimestamps_get, copyButtons_get by reflexivity.
    now apply assembled_type with pm large small. }
  split; [|split].
  - intros k v Hk Hget. apply (keep_other k); [assumption|].
    exact (obj_get_filter_Some keep k v _ Hget).
  - exists (default PLAYING (statusType appInfo)).
    now rewrite Htype, typeCode_code.
  - intros appInfo' Happ' Hplaying. rewrite Happ in Happ'.
    injection Happ' as <-. rewrite Htype, typeCode_code.
    now destruct Hplaying as [-> | ->].
Qed.

Lemma getActivity_pruned_witness :
  let h := Scenario.host "Wikipedia" (Some Scenario.notFound)
             (Scenario.options true false None) Scenario.now in
  let act : Obj :=
    [ ("application_id", VString "463097721130188830");
      ("name", VString "Wikipedia"); ("type", VNumber 0); ("flags", VNumber 1);
      ("assets",
        VObject [ ("large_image", VString "mp:external/");
                  ("large_text", VString "vcMiD v1.2.0");
                  ("small_image", VString "mp:external/");
                  ("small_text", VString "hello there :3") ]);
      ("metadata", VObject [("button_urls", VArray [])]) ] in
  result (getActivity h Scenario.blank fresh) = Some (Some act)
  /\ (forall k v, k <> "type" -> obj_get k act = Some v ->
        truthy v = true /\ length_is_zero v = false)
  /\ obj_get "type" act = Some (VNumber 0)
  /\ obj_get "details" act = None /\ obj_get "state" act = None
  /\ obj_get "buttons" act = None.
Proof.
  intros h act.
  assert (H : result (getActivity h Scenario.blank fresh) = Some (Some act))
    by (vm_compute; reflexivity).
  split; [exact H|].
  split; [exact (proj1 (getActivity_pruned h Scenario.blank fresh act H))|].
  repeat split.
Defined.

(** *** Timestamps *)

(** The object the timestamp block starts from carries the category of
    the descriptor, no [timestamps], and -- unless the category is
    Playing -- the three assets of the literal. *)
Lemma before_timestamps h pm appInfo large small activity :
  assembled appInfo pm large small activity ->
  let X := copyButtons h appInfo pm activity in
  obj_get "type" X = Some (typeCode appInfo)
  /\ obj_get "timestamps" X = None
  /\ (typeCode appInfo <> VNumber 0 ->
      obj_get "assets" X
      = Some (VObject [ ("large_image", VString large);
                        ("small_image", VString small);
                        ("small_text", VString (smallText pm)) ])).
Proof.
  intros Hact X. subst X.
  rewrite !copyButtons_get by reflexivity.
  split; [now apply assembled_type with pm large small|].
  split; [now rewrite (assembled_get _ _ _ _ _ "timestamps" Hact)|].
  intros Htype. unfold assembled in Hact. cbv zeta in Hact.
  change (field "type" (VObject (initialActivity appInfo pm large small)))
    with (typeCode appInfo) in Hact.
  rewrite typeCode_code in Hact, Htype.
  destruct (statusType appInfo) as [[]|]; simpl in Hact, Htype;
    try congruence; now subst activity.
Qed.

Lemma getActivity_category h pm s act t :
  result (getActivity h pm s) = Some (Some act) ->
  obj_get "type" act = Some (VNumber t) ->
  exists appInfo large small activity,
    assembled appInfo pm large small activity
    /\ typeCode appInfo = VNumber t
    /\ act = prune (copyTimestamps h pm (copyButtons h appInfo pm activity)).
Proof.
  intros H Ht.
  apply getActivity_returned in H
    as (appInfo & large & small & activity & _ & _ & _ & Hact & ->).
  exists appInfo, large, small, activity. split; [assumption|]. split; [|reflexivity].
  rewrite prune_type, copyTimestamps_get in Ht by reflexivity.
  destruct (before_timestamps h pm appInfo large small activity Hact) as (Hty & _).
  congruence.
Qed.

Lemma largeText_prune activity assets :
  obj_get "assets" activity = Some assets ->
  keep ("assets", assets) = true ->
  largeText (prune activity) = field "large_text" assets.
Proof.
  intros Hget Hkeep. unfold largeText, prune. simpl.
  now rewrite (obj_get_filter_kept keep "assets" assets activity Hget Hkeep).
Qed.

Lemma field_type activity v :
  obj_get "type" activity = Some v -> field "type" (VObject activity) = v.
Proof. intros H. simpl. now rewrite H. Qed.

(** The caption the timestamp block writes for a Watching activity. *)
Lemma watching_caption (pm : Activity) X large small caption timestamps :
  obj_get "assets" X
  = Some (VObject [ ("large_image", VString large);
                    ("small_image", VString small);
                    ("small_text", VString (smallText pm)) ]) ->
  largeText (prune (obj_set "timestamps" timestamps (setLargeText caption X)))
  = VString caption.
Proof.
  intros Hassets.
  set (assets := VObject [ ("large_image", VString large);
                           ("small_image", VString small);
                           ("small_text", VString (smallText pm));
                           ("large_text", VString caption) ]).
  assert (Hget : obj_get "assets"
                   (obj_set "timestamps" timestamps (setLargeText caption X))
                 = Some assets).
  { unfold setLargeText. rewrite obj_get_set_ne, obj_get_set_eq by reflexivity.
    simpl. rewrite Hassets. reflexivity. }
  now rewrite (largeText_prune _ assets Hget eq_refl).
Qed.

(** Below a hundred minutes [formatTime] is zero-padded MM:SS. *)
Lemma formatTime_mmss seconds :
  0 <= seconds < 6000 -> formatTime seconds = mmss seconds.
Proof.
  intros Hrange.
  assert (Hall : forallb
                   (fun n => String.eqb (formatTime (Z.of_nat n)) (mmss (Z.of_nat n)))
                   (seq 0 (Z.to_nat 6000)) = true) by (vm_compute; reflexivity).
  rewrite forallb_forall in Hall.
  specialize (Hall (Z.to_nat seconds)).
  rewrite Z2Nat.id in Hall by lia.
  apply String.eqb_eq, Hall, in_seq. lia.
Qed.

Lemma formatTime_125 : formatTime 125 = "02:05".
Proof. reflexivity. Qed.

Lemma formatTime_65 : formatTime 65 = "01:05".
Proof. reflexivity. Qed.

(** C5. For a returned activity of category Watching: with only a start
    timestamp present (truthy, as the code tests it) the large-image
    caption is [formatTime (now - start)] followed by " elapsed", which
    for start = now - 125 is "02:05 elapsed"; with only an end timestamp
    present it is [formatTime (end - now)] followed by " left", which for
    end = now + 65 is "01:05 left". Below a hundred minutes the time reads
    as zero-padded MM:SS. *)
Theorem getActivity_watching_caption h pm s act ts :
  result (getActivity h pm s) = Some (Some act) ->
  obj_get "type" act = Some (VNumber (code WATCHING)) ->
  timestamps pm = Some ts ->
  (forall t, start ts = Some t -> end_ ts = None -> t <> 0 ->
     largeText act = VString (formatTime (nowSeconds h - t) +:+ " elapsed")
     /\ (t = nowSeconds h - 125 -> largeText act = VString "02:05 elapsed")
     /\ (0 <= nowSeconds h - t < 6000 ->
         largeText act = VString (mmss (nowSeconds h - t) +:+ " elapsed")))
  /\ (forall t, start ts = None -> end_ ts = Some t -> t <> 0 ->
     largeText act = VString (formatTime (t - nowSeconds h) +:+ " left")
     /\ (t = nowSeconds h + 65 -> largeText act = VString "01:05 left")
     /\ (0 <= t - nowSeconds h < 6000 ->
         largeText act = VString (mmss (t - nowSeconds h) +:+ " left"))).
Proof.
  intros H Htype Hts.
  apply getActivity_category with (t := code WATCHING) in H as
    (appInfo & large & small & activity & Hact & Hcode & ->); [|assumption].
  destruct (before_timestamps h pm appInfo large small activity Hact)
    as (Hty & _ & Hassets).
  rewrite Hcode in Hty, Hassets. specialize (Hassets ltac:(discriminate)).
  set (X := copyButtons h appInfo pm activity) in *.
  split; intros t Hstart Hend Hnz.
  - assert (Hcap : largeText (prune (copyTimestamps h pm X))
                   = VString (formatTime (nowSeconds h - t) +:+ " elapsed")).
    { unfold copyTimestamps. rewrite Hts, Hstart, Hend.
      rewrite (field_type X _ Hty). simpl.
      apply Z.eqb_neq in Hnz. rewrite Hnz. simpl.
      now apply watching_caption with pm large small. }
    split; [exact Hcap|]. split.
    + intros ->. rewrite Hcap.
      replace (nowSeconds h - (nowSeconds h - 125)) with 125 by lia.
      now rewrite formatTime_125.
    + intros Hrange. now rewrite Hcap, formatTime_mmss.
  - assert (Hcap : largeText (prune (copyTimestamps h pm X))
                   = VString (formatTime (t - nowSeconds h) +:+ " left")).
    { unfold copyTimestamps. rewrite Hts, Hstart, Hend.
      rewrite (field_type X _ Hty). simpl.
      apply Z.eqb_neq in Hnz. rewrite Hnz. simpl.
      now apply watching_caption with pm large small. }
    split; [exact Hcap|]. split.
    + intros ->. rewrite Hcap.
      replace (nowSeconds h + 65 - nowSeconds h) with 65 by lia.
      now rewrite formatTime_65.
    + intros Hrange. now rewrite Hcap, formatTime_mmss.
Qed.

Lemma getActivity_watching_caption_witness :
  let h := Scenario.host "YouTube" (Some (Scenario.document Scenario.videosDoc))
             (Scenario.options false false None) Scenario.now in
  let started := {| start := Some (Scenario.now - 125); end_ := None |} in
  let ending := {| start := None; end_ := Some (Scenario.now + 65) |} in
  (exists act,
     result (getActivity h (Scenario.payload (Some started)) fresh) = Some (Some act)
     /\ obj_get "type" act = Some (VNumber (code WATCHING))
     /\ largeText act = VString "02:05 elapsed")
  /\ (exists act,
     result (getActivity h (Scenario.payload (Some ending)) fresh) = Some (Some act)
     /\ obj_get "type" act = Some (VNumber (code WATCHING))
     /\ largeText act = VString "01:05 left").
Proof.
  intros h started ending. split.
  - destruct (result (getActivity h (Scenario.payload (Some started)) fresh))
      as [[act|]|] eqn:H; try (vm_compute in H; discriminate).
    assert (Htype : obj_get "type" act = Some (VNumber (code WATCHING)))
      by (vm_compute in H; injection H as <-; reflexivity).
    exists act. split; [reflexivity|]. split; [exact Htype|].
    destruct (getActivity_watching_caption h _ fresh act started H Htype eq_refl)
      as (Hstart & _).
    destruct (Hstart (Scenario.now - 125) eq_refl eq_refl ltac:(discriminate))
      as (_ & Hcap & _).
    apply Hcap. reflexivity.
  - destruct (result (getActivity h (Scenario.payload (Some ending)) fresh))
      as [[act|]|] eqn:H; try (vm_compute in H; discriminate).
    assert (Htype : obj_get "type" act = Some (VNumber (code WATCHING)))
      by (vm_compute in H; injection H as <-; reflexivity).
    exists act. split; [reflexivity|]. split; [exact Htype|].
    destruct (getActivity_watching_caption h _ fresh act ending H Htype eq_refl)
      as (_ & Hend).
    destruct (Hend (Scenario.now + 65) eq_refl eq_refl ltac:(discriminate))
      as (_ & Hcap & _).
    apply Hcap. reflexivity.
Defined.

Lemma copyTimestamps_none h pm X :
  timestamps pm = None
  \/ (exists ts, timestamps pm = Some ts
                 /\ truthy (ofNumber (start ts)) = false
                 /\ truthy (ofNumber (end_ ts)) = false) ->
  copyTimestamps h pm X = X.
Proof.
  unfold copyTimestamps. intros [-> | (ts & -> & Hs & He)]; [reflexivity|].
  now rewrite Hs, He.
Qed.

(** C6. When the payload's start and end are both set (truthy), the
    returned activity's [timestamps] is the inbound object, the pair
    unchanged; when the payload has neither, the returned activity has no
    [timestamps] key. *)
Theorem getActivity_timestamps h pm s act :
  result (getActivity h pm s) = Some (Some act) ->
  (forall ts t1 t2,
     timestamps pm = Some ts -> start ts = Some t1 -> end_ ts = Some t2 ->
     t1 <> 0 -> t2 <> 0 ->
     obj_get "timestamps" act = Some (timestampsValue ts)
     /\ timestampsValue ts = VObject [("start", VNumber t1); ("end", VNumber t2)])
  /\ (timestamps pm = None
      \/ (exists ts, timestamps pm = Some ts /\ start ts = None /\ end_ ts = None) ->
      obj_get "timestamps" act = None).
Proof.
  intros H.
  apply getActivity_returned in H
    as (appInfo & large & small & activity & _ & _ & _ & Hact & ->).
  destruct (before_timestamps h pm appInfo large small activity Hact)
    as (_ & Hnone & _).
  split.
  - intros ts t1 t2 Hts Hstart Hend Hnz1 Hnz2.
    assert (Hval : timestampsValue ts
                   = VObject [("start", VNumber t1); ("end", VNumber t2)])
      by (unfold timestampsValue; now rewrite Hstart, Hend).
    split; [|exact Hval].
    unfold copyTimestamps. rewrite Hts, Hstart, Hend. simpl.
    apply Z.eqb_neq in Hnz1, Hnz2. rewrite Hnz1, Hnz2. simpl.
    apply obj_get_filter_kept; [apply obj_get_set_eq|].
    now rewrite Hval.
  - intros Hlack. rewrite copyTimestamps_none.
    + now apply obj_get_filter_None.
    + destruct Hlack as [Hts | (ts & Hts & Hs & He)]; [now left|].
      right. exists ts. now rewrite Hs, He.
Qed.

Lemma getActivity_timestamps_witness :
  let h := Scenario.host "YouTube" (Some (Scenario.document Scenario.videosDoc))
             (Scenario.options false false None) Scenario.now in
  let range := {| start := Some 1699999000; end_ := Some 1700000300 |} in
  (exists act,
     result (getActivity h (Scenario.payload (Some range)) fresh) = Some (Some act)
     /\ obj_get "timestamps" act
        = Some (VObject [("start", VNumber 1699999000); ("end", VNumber 1700000300)]))
  /\ (exists act,
     result (getActivity h (Scenario.payload None) fresh) = Some (Some act)
     /\ obj_get "timestamps" act = None).
Proof.
  intros h range. split.
  - destruct (result (getActivity h (Scenario.payload (Some range)) fresh))
      as [[act|]|] eqn:H; try (vm_compute in H; discriminate).
    exists act. split; [reflexivity|].
    destruct (getActivity_timestamps h _ fresh act H) as (Hboth & _).
    destruct (Hboth range 1699999000 1700000300 eq_refl eq_refl eq_refl
                ltac:(discriminate) ltac:(discriminate)) as (Hget & Hval).
    now rewrite Hget, Hval.
  - destruct (result (getActivity h (Scenario.payload None) fresh))
      as [[act|]|] eqn:H; try (vm_compute in H; discriminate).
    exists act. split; [reflexivity|].
    destruct (getActivity_timestamps h _ fresh act H) as (_ & Hnone).
    apply Hnone. now left.
Defined.

(** Two payloads that differ in their [timestamps] alone are synthesized
    alike as soon as the timestamp block treats them alike. *)
Lemma getActivity_timestamps_ext h pm ts s :
  (forall X, copyTimestamps h pm X = copyTimestamps h (withTimestamps pm ts) X) ->
  getActivity h pm s = getActivity h (withTimestamps pm ts) s.
Proof.
  intros Hsame. unfold getActivity, bind.
  change (application_id (withTimestamps pm ts)) with (application_id pm).
  change (largeImageKey (withTimestamps pm ts)) with (largeImageKey pm).
  change (smallImageKey (withTimestamps pm ts)) with (smallImageKey pm).
  destruct (getApp h (application_id pm) s) as [appInfo s1|s1]; [|reflexivity].
  destruct (negb _ || _); [reflexivity|].
  destruct (getAppAsset h _ (largeImageKey pm) s1) as [large s2|s2]; [|reflexivity].
  destruct (getAppAsset h _ (smallImageKey pm) s2) as [small s3|s3]; [|reflexivity].
  change (initialActivity appInfo (withTimestamps pm ts) large small)
    with (initialActivity appInfo pm large small).
  change (brand h (withTimestamps pm ts)) with (brand h pm).
  destruct (brand h pm _ s3) as [activity s4|s4]; [|reflexivity].
  change (copyButtons h appInfo (withTimestamps pm ts) activity)
    with (copyButtons h appInfo pm activity).
  now rewrite Hsame.
Qed.

(** C10. A payload whose [timestamps] holds a start of 0 and no end is
    synthesized exactly as the same payload without [timestamps]: the
    returned activity has no [timestamps] key, and no caption is derived
    from the clock -- a Watching activity is left without a large-image
    caption. *)
Theorem getActivity_zero_start h pm s ts :
  timestamps pm = Some ts -> start ts = Some 0 -> end_ ts = None ->
  getActivity h pm s = getActivity h (withTimestamps pm None) s
  /\ (forall act,
        result (getActivity h pm s) = Some (Some act) ->
        obj_get "timestamps" act = None
        /\ (obj_get "type" act = Some (VNumber (code WATCHING)) ->
            largeText act = VUndefined)).
Proof.
  intros Hts Hstart Hend.
  assert (Hskip : forall X, copyTimestamps h pm X = X).
  { intros X. apply copyTimestamps_none. right. exists ts.
    now rewrite Hstart, Hend. }
  split.
  - apply getActivity_timestamps_ext. intros X. now rewrite Hskip.
  - intros act H. split.
    + apply getActivity_returned in H
        as (appInfo & large & small & activity & _ & _ & _ & Hact & ->).
      destruct (before_timestamps h pm appInfo large small activity Hact)
        as (_ & Hnone & _).
      rewrite Hskip. now apply obj_get_filter_None.
    + intros Htype.
      apply getActivity_category with (t := code WATCHING) in H as
        (appInfo & large & small & activity & Hact & Hcode & ->); [|assumption].
      destruct (before_timestamps h pm appInfo large small activity Hact)
        as (_ & _ & Hassets).
      rewrite Hcode in Hassets. specialize (Hassets ltac:(discriminate)).
      rewrite Hskip.
      now rewrite (largeText_prune _ _ Hassets eq_refl).
Qed.

Lemma getActivity_zero_start_witness :
  let h := Scenario.host "YouTube" (Some (Scenario.document Scenario.videosDoc))
             (Scenario.options false false None) Scenario.now in
  let zero := {| start := Some 0; end_ := None |} in
  let pm := Scenario.payload (Some zero) in
  getActivity h pm fresh = getActivity h (Scenario.payload None) fresh
  /\ exists act,
       result (getActivity h pm fresh) = Some (Some act)
       /\ obj_get "type" act = Some (VNumber (code WATCHING))
       /\ obj_get "timestamps" act = None
       /\ largeText act = VUndefined.
Proof.
  intros h zero pm.
  destruct (getActivity_zero_start h pm fresh zero eq_refl eq_refl eq_refl)
    as (Hsame & Hact).
  split; [exact Hsame|].
  destruct (result (getActivity h pm fresh)) as [[act|]|] eqn:H;
    try (vm_compute in H; discriminate).
  assert (Htype : obj_get "type" act = Some (VNumber (code WATCHING)))
    by (vm_compute in H; injection H as <-; reflexivity).
  exists act. destruct (Hact act eq_refl) as (Hnone & Hcap).
  repeat split; auto.
Defined.

(** *** Category *)

(** C1, at the input where the code departs from it. The metadata fetch
    of "Wikipedia" is not found, so the inferred category is Playing; the
    operator's fallback is Watching. The descriptor is stored with
    Watching and the synthesized activity carries code 3, not 0. *)
Theorem getActivity_inferred_playing_replaced :
  let h := Scenario.host "Wikipedia" (Some Scenario.notFound)
             (Scenario.options false false (Some WATCHING)) Scenario.now in
  let pm := Scenario.payload None in
  result (determineStatusType h (Scenario.app "Wikipedia") fresh)
  = Some (Some PLAYING)
  /\ result (getApp h (application_id pm) fresh)
     = Some (withStatusType (Scenario.app "Wikipedia") (Some WATCHING))
  /\ exists act,
       result (getActivity h pm fresh) = Some (Some act)
       /\ obj_get "type" act = Some (VNumber (code WATCHING))
       /\ obj_get "type" act <> Some (VNumber (code PLAYING)).
Proof.
  intros h pm. split; [reflexivity|]. split; [vm_compute; reflexivity|].
  destruct (result (getActivity h pm fresh)) as [[act|]|] eqn:H;
    try (vm_compute in H; discriminate).
  exists act. split; [reflexivity|].
  vm_compute in H. injection H as <-. split; [reflexivity|discriminate].
Qed.

(** *** Buttons *)

(** With buttons shown, the application called YouTube and the
    view-channel button hidden, the button block keeps the first label and
    never writes [metadata]: the object it receives has no [metadata] for
    the guard [activity.metadata && ...] to find. *)
Lemma copyButtons_youtube h appInfo pm activity labels :
  settings.showButtons (settings_store h) = true ->
  settings.hideViewChannel (settings_store h) = true ->
  name appInfo = "YouTube" ->
  buttons pm = Some labels ->
  obj_get "metadata" activity = None ->
  copyButtons h appInfo pm activity
  = obj_set "buttons" (VArray [nth 0 (map VString labels) VUndefined]) activity.
Proof.
  intros Hshow Hhide Hname Hbuttons Hnone.
  unfold copyButtons. rewrite Hbuttons, Hshow, Hhide, Hname. simpl.
  rewrite obj_get_set_ne, Hnone by reflexivity. simpl.
  destruct (metadata pm) as [m|]; [|reflexivity].
  now destruct (button_urls m).
Qed.

(** X14. In the YouTube case with the view-channel button hidden, the
    returned activity keeps the first label alone and has no [metadata],
    whatever URLs the payload carries. *)
Lemma getActivity_youtube_buttons h pm s act first rest :
  result (getActivity h pm s) = Some (Some act) ->
  settings.showButtons (settings_store h) = true ->
  settings.hideViewChannel (settings_store h) = true ->
  obj_get "name" act = Some (VString "YouTube") ->
  buttons pm = Some (first :: rest) ->
  obj_get "buttons" act = Some (VArray [VString first])
  /\ obj_get "metadata" act = None.
Proof.
  intros H Hshow Hhide Hname Hbuttons.
  apply getActivity_returned in H
    as (appInfo & large & small & activity & _ & Hne & _ & Hact & ->).
  assert (Hname' : name appInfo = "YouTube").
  { unfold prune in Hname.
    assert (Hin : obj_get "name" (copyTimestamps h pm (copyButtons h appInfo pm activity))
                  = Some (VString (name appInfo))).
    { rewrite copyTimestamps_get, copyButtons_get by reflexivity.
      now rewrite (assembled_get _ _ _ _ _ "name" Hact). }
    rewrite (obj_get_filter_kept keep _ _ _ Hin) in Hname.
    - congruence.
    - unfold keep. simpl. apply String.eqb_neq in Hne. now rewrite Hne. }
  assert (Hnone : obj_get "metadata" activity = None)
    by now rewrite (assembled_get _ _ _ _ _ "metadata" Hact).
  rewrite (copyButtons_youtube h appInfo pm activity (first :: rest))
    by assumption.
  split.
  - apply obj_get_filter_kept; [|reflexivity].
    rewrite copyTimestamps_get by reflexivity. apply obj_get_set_eq.
  - apply obj_get_filter_None.
    rewrite copyTimestamps_get, obj_get_set_ne by reflexivity. exact Hnone.
Qed.

(** C3, at the input where the code departs from it. Buttons are shown,
    the application is YouTube, the view-channel button is hidden, and
    the payload carries two labels with two URLs. The returned activity
    keeps the first label alone, and carries no [metadata] at all: the
    first URL is not passed on. *)
Theorem getActivity_youtube_button_urls_dropped :
  let h := Scenario.host "YouTube" (Some (Scenario.document Scenario.videosDoc))
             (Scenario.options true true None) Scenario.now in
  exists act,
    result (getActivity h Scenario.withButtons fresh) = Some (Some act)
    /\ obj_get "buttons" act = Some (VArray [VString "Watch"])
    /\ obj_get "metadata" act = None
    /\ field "button_urls" (field "metadata" (VObject act))
       <> VArray [VString "https://youtu.be/x"].
Proof.
  intros h.
  destruct (result (getActivity h Scenario.withButtons fresh)) as [[act|]|] eqn:H;
    try (vm_compute in H; discriminate).
  exists act. split; [reflexivity|].
  vm_compute in H. injection H as <-.
  repeat split. discriminate.
Qed.

End Synthesis.


(** ** The text bridge *)

Section TextBridge.

Import VrcText.

Lemma replace_absent p s : includes p s = false -> replace p s = s.
Proof.
  induction s as [|c s IH]; simpl.
  - destruct (startsWith p []) eqn:E; [discriminate|reflexivity].
  - destruct (startsWith p (c :: s)) eqn:E; [discriminate|].
    simpl. intros H. now rewrite IH.
Qed.

Lemma onSend_routes b msg t :
  readyState b = OPEN \/ readyState b = CLOSING ->
  override b = false ->
  startsWith (lit "==") (trim (MessageObject.content msg)) = true ->
  onSend msg b t
  = (Some {| MessageObject.content := [] |},
     {| sent := sent t
                ++ routed (replace (lit "=/=")
                             (replace (lit "==") (MessageObject.content msg))) true;
        stopped := stopped t |}).
Proof.
  intros Hstate Hover Hprefix. unfold onSend.
  rewrite Hover, Hprefix.
  unfold bind, sendWsMessage, sendTyping, ws_send, bind, ret, routed.
  destruct Hstate as [-> | ->]; simpl; now rewrite <- !app_assoc.
Qed.

(** C9, as amended. For an outgoing message whose trimmed content starts
    with "==", with override mode off and the socket open or closing, the
    handler gives the socket a typing-off frame, then the bridge frame
    whose content is the message with the first "==" removed and, from
    what is left, the first "=/=" removed, then a typing-off frame; and it
    clears the message content. Where no "=/=" is left after the "==" is
    removed, the content is the message with the first "==" removed. *)
Theorem onSend_bridge_prefix b msg t :
  readyState b = OPEN \/ readyState b = CLOSING ->
  override b = false ->
  startsWith (lit "==") (trim (MessageObject.content msg)) = true ->
  let stripped := replace (lit "==") (MessageObject.content msg) in
  onSend msg b t
  = (Some {| MessageObject.content := lit "" |},
     {| sent := sent t ++ routed (replace (lit "=/=") stripped) true;
        stopped := stopped t |})
  /\ (includes (lit "=/=") stripped = false ->
      onSend msg b t
      = (Some {| MessageObject.content := lit "" |},
         {| sent := sent t ++ routed stripped true; stopped := stopped t |})).
Proof.
  intros Hstate Hover Hprefix stripped.
  pose proof (onSend_routes b msg t Hstate Hover Hprefix) as H.
  split; [exact H|].
  intros Habsent. rewrite H. subst stripped.
  now rewrite (replace_absent _ _ Habsent).
Qed.

Lemma onSend_bridge_prefix_witness :
  let b := {| readyState := OPEN; override := false |} in
  let msg := {| MessageObject.content := lit "==hello" |} in
  startsWith (lit "==") (trim (MessageObject.content msg)) = true
  /\ onSend msg b idle
     = (Some {| MessageObject.content := lit "" |},
        {| sent := routed (lit "hello") true; stopped := false |}).
Proof.
  intros b msg. split; [reflexivity|].
  destruct (onSend_bridge_prefix b msg idle (or_introl eq_refl) eq_refl eq_refl)
    as (_ & H).
  exact (H eq_refl).
Defined.

(** C9 as stated fails twice. With the socket open, "==a=/=b" reaches the
    bridge as "ab", not as the message with its first "==" removed; and
    with the socket still connecting -- not closed -- [ws.send] throws, so
    that nothing is sent and the content is not cleared. *)
Lemma onSend_not_first_prefix_only :
  let msg := {| MessageObject.content := lit "==a=/=b" |} in
  (startsWith (lit "==") (trim (MessageObject.content msg)) = true
   /\ replace (lit "==") (MessageObject.content msg) = lit "a=/=b"
   /\ onSend msg {| readyState := OPEN; override := false |} idle
      = (Some {| MessageObject.content := lit "" |},
         {| sent := routed (lit "ab") true; stopped := false |})
   /\ lit "ab" <> lit "a=/=b")
  /\ (let hello := {| MessageObject.content := lit "==hello" |} in
      startsWith (lit "==") (trim (MessageObject.content hello)) = true
      /\ CONNECTING <> CLOSED
      /\ onSend hello {| readyState := CONNECTING; override := false |} idle
         = (None, idle)).
Proof.
  intros msg. repeat split; discriminate.
Qed.

End TextBridge.

(** ** Application resolution: the cache and the external calls *)

Section Cache.

Import Silly.

(** X1. A first resolution that succeeds makes exactly two external
    calls, the application lookup and then one metadata fetch at the URL
    built from the looked-up name, and stores under the identifier the
    looked-up application, changed in its category alone. *)
Theorem getApp_first_resolution h applicationId s application res :
  apps s !! applicationId = None ->
  lookupRpcApp h applicationId = Some application ->
  fetch h (metadataUrl application) = Some res ->
  exists app,
    getApp h applicationId s
    = Returned app
        {| apps := <[applicationId := app]> (apps s);
           calls := calls s ++ [CallLookupRpcApp applicationId;
                                CallFetch (metadataUrl application)] |}
    /\ id app = id application /\ name app = name application
    /\ icon app = icon application /\ flags app = flags application.
Proof.
  intros Hmiss Happ Hres. unfold getApp. rewrite Hmiss.
  unfold bind, await, determineStatusType, remember, ret.
  rewrite Happ. simpl. rewrite Hres. simpl.
  eexists. split.
  - rewrite <- app_assoc. reflexivity.
  - repeat split.
Qed.

Lemma getApp_first_resolution_witness :
  let h := Scenario.host "YouTube" (Some (Scenario.document Scenario.videosDoc))
             (Scenario.options false false None) Scenario.now in
  exists app,
    getApp h "463097721130188830" fresh
    = Returned app
        {| apps := <["463097721130188830" := app]> ∅;
           calls := [CallLookupRpcApp "463097721130188830";
                     CallFetch "https://raw.githubusercontent.com/PreMiD/Presences/main/websites/Y/YouTube/metadata.json"] |}
    /\ name app = "YouTube".
Proof.
  intros h.
  destruct (getApp_first_resolution h "463097721130188830" fresh
              (Scenario.app "YouTube") (Scenario.document Scenario.videosDoc)
              eq_refl eq_refl eq_refl) as (app & Hrun & _ & Hname & _).
  exists app. split; [exact Hrun|exact Hname].
Defined.

Lemma getApp_statusType_witness :
  let h := Scenario.host "Spotify"
             (Some (Scenario.document (VObject [("category", VString "music")])))
             (Scenario.options false false (Some COMPETING)) Scenario.now in
  let quiet := Scenario.host "Wikipedia" (Some Scenario.notFound)
                 (Scenario.options false false (Some COMPETING)) Scenario.now in
  result (getApp h "463097721130188830" fresh)
  = Some (withStatusType (Scenario.app "Spotify") (Some LISTENING))
  /\ result (getApp quiet "463097721130188830" fresh)
     = Some (withStatusType (Scenario.app "Wikipedia") (Some COMPETING)).
Proof.
  intros h quiet. split.
  - exact (getApp_statusType h "463097721130188830" fresh (Scenario.app "Spotify")
             (Scenario.document (VObject [("category", VString "music")]))
             eq_refl eq_refl eq_refl).
  - exact (getApp_statusType quiet "463097721130188830" fresh (Scenario.app "Wikipedia")
             Scenario.notFound eq_refl eq_refl eq_refl).
Defined.

(** X3. A resolution that rejects -- the application lookup or the
    metadata fetch failed -- leaves the cache as it was: the failure is not
    remembered and the identifier is still unresolved. *)
Theorem getApp_failure_not_cached h applicationId s :
  result (getApp h applicationId s) = None ->
  apps (final (getApp h applicationId s)) = apps s
  /\ apps s !! applicationId = None
  /\ (lookupRpcApp h applicationId = None
      \/ exists application,
           lookupRpcApp h applicationId = Some application
           /\ fetch h (metadataUrl application) = None).
Proof.
  unfold getApp.
  destruct (apps s !! applicationId) as [cached|] eqn:Hit; simpl; [discriminate|].
  unfold bind, await, determineStatusType, remember, ret.
  destruct (lookupRpcApp h applicationId) as [application|]; simpl.
  - destruct (fetch h (metadataUrl application)) as [res|] eqn:Hres; simpl;
      [discriminate|].
    intros _. repeat split. right. now exists application.
  - intros _. repeat split. now left.
Qed.

Lemma getApp_failure_not_cached_witness :
  let offline := Scenario.host "YouTube" None
                   (Scenario.options false false None) Scenario.now in
  result (getApp offline "463097721130188830" fresh) = None
  /\ apps (final (getApp offline "463097721130188830" fresh)) = ∅.
Proof.
  intros offline.
  assert (H : result (getApp offline "463097721130188830" fresh) = None)
    by reflexivity.
  split; [exact H|].
  exact (proj1 (getApp_failure_not_cached offline "463097721130188830" fresh H)).
Defined.


Lemma getActivity_apps h pm s :
  apps (final (getActivity h pm s))
  = apps (final (getApp h (application_id pm) s)).
Proof.
  unfold getActivity, bind.
  destruct (getApp h (application_id pm) s) as [appInfo s1|s1]; [|reflexivity].
  destruct (negb _ || _); [reflexivity|].
  unfold brand, getAppAsset, bind, await, ret.
  destruct (getAsset h (application_id pm) (largeImageKey pm)) as [large|];
    [|reflexivity].
  destruct (getAsset h (application_id pm) (smallImageKey pm)) as [small|];
    [|reflexivity].
  destruct (isNumber _ _); reflexivity.
Qed.





(** X6. The [try] of [determineStatusType] does not cover the fetch: when
    the metadata fetch itself rejects on a first resolution, synthesis
    rejects after the application lookup and the fetch, and nothing is
    cached. *)
Theorem getActivity_fetch_rejects h pm s application :
  apps s !! application_id pm = None ->
  lookupRpcApp h (application_id pm) = Some application ->
  fetch h (metadataUrl application) = None ->
  getActivity h pm s
  = Rejected {| apps := apps s;
                calls := calls s ++ [CallLookupRpcApp (application_id pm);
                                     CallFetch (metadataUrl application)] |}.
Proof.
  intros Hmiss Happ Hres. unfold getActivity, bind at 1, getApp.
  rewrite Hmiss.
  unfold bind, await, determineStatusType, remember, ret.
  rewrite Happ. simpl. rewrite Hres. simpl.
  now rewrite <- app_assoc.
Qed.

Lemma getActivity_fetch_rejects_witness :
  let offline := Scenario.host "YouTube" None
                   (Scenario.options true true (Some WATCHING)) Scenario.now in
  getActivity offline Scenario.withButtons fresh
  = Rejected {| apps := ∅;
                calls := [CallLookupRpcApp "463097721130188830";
                          CallFetch "https://raw.githubusercontent.com/PreMiD/Presences/main/websites/Y/YouTube/metadata.json"] |}.
Proof.
  intros offline.
  exact (getActivity_fetch_rejects offline Scenario.withButtons fresh
           (Scenario.app "YouTube") eq_refl eq_refl eq_refl).
Defined.

End Cache.

(** ** Activity synthesis: what each key of the result holds *)

Section Fields.

Import Silly.

Lemma obj_set_keys_in k v (o : Obj) k' :
  In k' (map fst (obj_set k v o)) <-> k' = k \/ In k' (map fst o).
Proof.
  induction o as [|[k0 v0] o IH]; simpl.
  - intuition.
  - destruct (String.eqb k0 k) eqn:E; simpl.
    + apply String.eqb_eq in E. subst k0. intuition.
    + rewrite IH. intuition.
Qed.

Lemma obj_set_NoDup k v (o : Obj) :
  List.NoDup (map fst o) -> List.NoDup (map fst (obj_set k v o)).
Proof.
  induction o as [|[k0 v0] o IH]; simpl; intros Hnd.
  - constructor; [intros []|constructor].
  - destruct (String.eqb k0 k) eqn:E; simpl; [assumption|].
    inversion Hnd as [|? ? Hnotin Hrest]; subst.
    constructor; [|now apply IH].
    rewrite obj_set_keys_in. intros [-> | Hin]; [|contradiction].
    now rewrite String.eqb_refl in E.
Qed.

Lemma obj_get_notin k (o : Obj) : ~ In k (map fst o) -> obj_get k o = None.
Proof.
  induction o as [|[k0 v0] o IH]; simpl; [reflexivity|].
  intros Hnotin. destruct (String.eqb k0 k) eqn:E.
  - apply String.eqb_eq in E. tauto.
  - apply IH. tauto.
Qed.

Lemma obj_get_filter_dropped (f : string * Value -> bool) k v (o : Obj) :
  List.NoDup (map fst o) -> obj_get k o = Some v -> f (k, v) = false ->
  obj_get k (List.filter f o) = None.
Proof.
  induction o as [|[k0 v0] o IH]; simpl; [discriminate|].
  intros Hnd Hget Hf. inversion Hnd as [|? ? Hnotin Hrest]; subst.
  destruct (String.eqb k0 k) eqn:E.
  - apply String.eqb_eq in E. subst k0. injection Hget as ->. rewrite Hf.
    apply obj_get_filter_None. now apply obj_get_notin.
  - destruct (f (k0, v0)); simpl; rewrite ?E; now apply IH.
Qed.

Lemma initialActivity_NoDup appInfo pm large small :
  List.NoDup (map fst (initialActivity appInfo pm large small)).
Proof.
  simpl. repeat constructor; simpl; intuition discriminate.
Qed.

Lemma assembled_NoDup appInfo pm large small activity :
  assembled appInfo pm large small activity -> List.NoDup (map fst activity).
Proof.
  unfold assembled. cbv zeta. destruct (isNumber _ _); intros ->.
  - apply obj_set_NoDup, initialActivity_NoDup.
  - apply initialActivity_NoDup.
Qed.

Lemma copyButtons_NoDup h appInfo pm activity :
  List.NoDup (map fst activity) ->
  List.NoDup (map fst (copyButtons h appInfo pm activity)).
Proof.
  intros Hnd. unfold copyButtons.
  repeat match goal with
         | |- context [match ?x with _ => _ end] => destruct x
         end;
    repeat apply obj_set_NoDup; assumption.
Qed.

Lemma copyTimestamps_NoDup h pm activity :
  List.NoDup (map fst activity) ->
  List.NoDup (map fst (copyTimestamps h pm activity)).
Proof.
  intros Hnd. unfold copyTimestamps, setLargeText.
  repeat match goal with
         | |- context [match ?x with _ => _ end] => destruct x
         end;
    repeat apply obj_set_NoDup; assumption.
Qed.

(** What the final loop makes of a string-valued key. *)
Lemma prune_string k o (X : Obj) :
  List.NoDup (map fst X) -> String.eqb k "type" = false ->
  obj_get k X = Some (ofString o) ->
  obj_get k (prune X) = kept o.
Proof.
  intros Hnd Hk Hget. unfold prune.
  destruct o as [text|]; simpl in *.
  - destruct (String.eqb text "") eqn:E.
    + apply (obj_get_filter_dropped keep k (VString text)); try assumption.
      unfold keep. simpl. now rewrite Hk, E.
    + apply obj_get_filter_kept; [assumption|].
      unfold keep. simpl. now rewrite Hk, E.
  - apply (obj_get_filter_dropped keep k VUndefined); try assumption.
    unfold keep. simpl. now rewrite Hk.
Qed.

(** X7. The scalar keys of a returned activity: [name] is the resolved
    application's name, [flags] is 1, and [application_id], [details] and
    [state] are the payload's when they are non-empty strings and are
    absent otherwise. *)
Theorem getActivity_fields h pm s act :
  result (getActivity h pm s) = Some (Some act) ->
  (exists appInfo,
     result (getApp h (application_id pm) s) = Some appInfo
     /\ obj_get "name" act = Some (VString (name appInfo)))
  /\ obj_get "flags" act = Some (VNumber 1)
  /\ obj_get "application_id" act = kept (Some (application_id pm))
  /\ obj_get "details" act = kept (details pm)
  /\ obj_get "state" act = kept (state pm).
Proof.
  intros H.
  apply getActivity_returned in H
    as (appInfo & large & small & activity & Happ & Hne & _ & Hact & ->).
  set (X := copyTimestamps h pm (copyButtons h appInfo pm activity)).
  assert (Hnd : List.NoDup (map fst X))
    by (apply copyTimestamps_NoDup, copyButtons_NoDup;
        now apply assembled_NoDup with appInfo pm large small).
  assert (Hget : forall k,
             String.eqb "timestamps" k = false -> String.eqb "assets" k = false ->
             String.eqb "buttons" k = false -> String.eqb "metadata" k = false ->
             obj_get k X = obj_get k (initialActivity appInfo pm large small)).
  { intros k H1 H2 H3 H4. subst X.
    rewrite copyTimestamps_get, copyButtons_get by assumption.
    now apply assembled_get. }
  split; [|split; [|split; [|split]]].
  - exists appInfo. split; [assumption|].
    rewrite (prune_string "name" (Some (name appInfo)) X Hnd eq_refl).
    + simpl. apply String.eqb_neq in Hne. now rewrite Hne.
    + now rewrite Hget.
  - apply obj_get_filter_kept; [now rewrite Hget|reflexivity].
  - apply prune_string; [assumption|reflexivity|now rewrite Hget].
  - apply prune_string; [assumption|reflexivity|now rewrite Hget].
  - apply prune_string; [assumption|reflexivity|now rewrite Hget].
Qed.

Lemma getActivity_fields_witness :
  let h := Scenario.host "Wikipedia" (Some Scenario.notFound)
             (Scenario.options true false None) Scenario.now in
  exists act,
    result (getActivity h Scenario.blank fresh) = Some (Some act)
    /\ obj_get "name" act = Some (VString "Wikipedia")
    /\ obj_get "flags" act = Some (VNumber 1)
    /\ obj_get "application_id" act = Some (VString "463097721130188830")
    /\ obj_get "details" act = None
    /\ obj_get "state" act = None.
Proof.
  intros h.
  destruct (result (getActivity h Scenario.blank fresh)) as [[act|]|] eqn:H;
    try (vm_compute in H; discriminate).
  exists act. split; [reflexivity|].
  destruct (getActivity_fields h Scenario.blank fresh act H)
    as ((appInfo & Happ & Hname) & Hflags & Hid & Hdetails & Hstate).
  vm_compute in Happ. injection Happ as <-.
  repeat split; assumption.
Defined.

(** *** Assets and captions *)

Lemma copyTimestamps_assets h pm (X : Obj) t :
  obj_get "type" X = Some (VNumber t) -> t <> code WATCHING ->
  obj_get "assets" (copyTimestamps h pm X) = obj_get "assets" X.
Proof.
  intros Hty Hne. unfold copyTimestamps. rewrite (field_type X _ Hty).
  unfold isNumber. apply Z.eqb_neq in Hne. rewrite Hne.
  repeat match goal with
         | |- context [match ?x with _ => _ end] => destruct x
         end;
    rewrite ?obj_get_set_ne by reflexivity; reflexivity.
Qed.

(** X8. The large-image caption by category: a Playing activity always
    carries the branding caption "vcMiD v1.2.0", and a Listening or
    Competing activity carries none -- whatever the payload's assets,
    captions and timestamps are. *)
Theorem getActivity_caption_by_category h pm s act :
  result (getActivity h pm s) = Some (Some act) ->
  (obj_get "type" act = Some (VNumber (code PLAYING)) ->
   largeText act = VString "vcMiD v1.2.0")
  /\ (obj_get "type" act = Some (VNumber (code LISTENING))
      \/ obj_get "type" act = Some (VNumber (code COMPETING)) ->
      largeText act = VUndefined).
Proof.
  intros H. split.
  - intros Htype.
    apply getActivity_category with (t := code PLAYING) in H as
      (appInfo & large & small & activity & Hact & Hcode & ->); [|assumption].
    destruct (before_timestamps h pm appInfo large small activity Hact)
      as (Hty & _ & _).
    rewrite Hcode in Hty.
    assert (Hassets : obj_get "assets" (copyButtons h appInfo pm activity)
                      = Some (playingAssets pm large small)).
    { rewrite copyButtons_get by reflexivity.
      unfold assembled in Hact. cbv zeta in Hact.
      change (field "type" (VObject (initialActivity appInfo pm large small)))
        with (typeCode appInfo) in Hact.
      rewrite Hcode in Hact. simpl in Hact. now subst activity. }
    rewrite <- (copyTimestamps_assets h pm _ _ Hty) in Hassets by discriminate.
    now rewrite (largeText_prune _ _ Hassets eq_refl).
  - intros Htype.
    assert (Hex : exists t, obj_get "type" act = Some (VNumber t)
                            /\ t <> 0 /\ t <> code WATCHING).
    { destruct Htype as [Ht | Ht]; eexists; (split; [exact Ht|split; discriminate]). }
    destruct Hex as (t & Ht & Hnz & Hnw).
    apply getActivity_category with (t := t) in H as
      (appInfo & large & small & activity & Hact & Hcode & ->); [|assumption].
    destruct (before_timestamps h pm appInfo large small activity Hact)
      as (Hty & _ & Hassets).
    rewrite Hcode in Hty, Hassets.
    specialize (Hassets ltac:(congruence)).
    rewrite <- (copyTimestamps_assets h pm _ _ Hty) in Hassets by assumption.
    now rewrite (largeText_prune _ _ Hassets eq_refl).
Qed.

Lemma getActivity_caption_by_category_witness :
  let playing := Scenario.host "Wikipedia" (Some Scenario.notFound)
                   (Scenario.options false false None) Scenario.now in
  let listening := Scenario.host "Spotify"
                     (Some (Scenario.document (VObject [("category", VString "music")])))
                     (Scenario.options false false None) Scenario.now in
  let pm := Scenario.payload (Some {| start := Some (Scenario.now - 125); end_ := None |}) in
  (exists act, result (getActivity playing pm fresh) = Some (Some act)
               /\ largeText act = VString "vcMiD v1.2.0")
  /\ (exists act, result (getActivity listening pm fresh) = Some (Some act)
                  /\ largeText act = VUndefined).
Proof.
  intros playing listening pm. split.
  - destruct (result (getActivity playing pm fresh)) as [[act|]|] eqn:H;
      try (vm_compute in H; discriminate).
    exists act. split; [reflexivity|].
    apply (getActivity_caption_by_category playing pm fresh act H).
    vm_compute in H. injection H as <-. reflexivity.
  - destruct (result (getActivity listening pm fresh)) as [[act|]|] eqn:H;
      try (vm_compute in H; discriminate).
    exists act. split; [reflexivity|].
    apply (getActivity_caption_by_category listening pm fresh act H).
    left. vm_compute in H. injection H as <-. reflexivity.
Defined.

(** X9. The payload's own large-image caption never reaches the result:
    synthesis of a payload is the same whatever its [assets.large_text]. *)
Theorem getActivity_ignores_large_text h pm caption s :
  getActivity h (withLargeText pm caption) s = getActivity h pm s.
Proof.
  destruct pm as [appId st de ts [[li lt si stx]|] bu me]; reflexivity.
Qed.

(** The assets of a returned activity hold the small caption and no
    [length]. *)
Lemma returned_assets h pm s act :
  result (getActivity h pm s) = Some (Some act) ->
  exists o,
    obj_get "assets" act = Some (VObject o)
    /\ obj_get "small_text" o = Some (VString (smallText pm)).
Proof.
  intros H.
  apply getActivity_returned in H
    as (appInfo & large & small & activity & _ & _ & _ & Hact & ->).
  assert (Hinit : exists o,
             obj_get "assets" (copyButtons h appInfo pm activity) = Some (VObject o)
             /\ obj_get "small_text" o = Some (VString (smallText pm))
             /\ obj_get "length" o = None).
  { rewrite copyButtons_get by reflexivity.
    unfold assembled in Hact. cbv zeta in Hact.
    destruct (isNumber _ _); subst activity; eexists; repeat split. }
  destruct Hinit as (o & Hassets & Hsmall & Hlen).
  set (X := copyButtons h appInfo pm activity) in *.
  assert (Hafter : exists o',
             obj_get "assets" (copyTimestamps h pm X) = Some (VObject o')
             /\ obj_get "small_text" o' = Some (VString (smallText pm))
             /\ obj_get "length" o' = None).
  { assert (Hset : forall caption,
               obj_get "assets" (setLargeText caption X)
               = Some (VObject (obj_set "large_text" (VString caption) o))).
    { intros caption. unfold setLargeText. rewrite obj_get_set_eq.
      simpl. now rewrite Hassets. }
    unfold copyTimestamps.
    repeat match goal with
           | |- context [match ?x with _ => _ end] => destruct x
           end;
      rewrite ?obj_get_set_ne by reflexivity;
      try (exists o; now repeat split);
      rewrite Hset; eexists; (split; [reflexivity|]);
      rewrite !obj_get_set_ne by reflexivity; now split. }
  destruct Hafter as (o' & Hassets' & Hsmall' & Hlen').
  exists o'. split; [|assumption].
  apply obj_get_filter_kept; [assumption|].
  unfold keep. simpl. now rewrite Hlen'.
Qed.

(** X10. The small-image caption of a returned activity is never empty:
    it is the payload's [assets.small_text] when that is a non-empty
    string and "hello there :3" otherwise. *)
Theorem getActivity_small_text h pm s act :
  result (getActivity h pm s) = Some (Some act) ->
  field "small_text" (field "assets" (VObject act)) = VString (smallText pm)
  /\ smallText pm <> ""
  /\ (forall a text, assets pm = Some a -> small_text a = Some text -> text <> "" ->
      smallText pm = text)
  /\ ((assets pm = None
       \/ exists a, assets pm = Some a
                    /\ (small_text a = None \/ small_text a = Some "")) ->
      smallText pm = "hello there :3").
Proof.
  intros H. apply returned_assets in H as (o & Hassets & Hsmall).
  split; [simpl; rewrite Hassets; simpl; now rewrite Hsmall|].
  unfold smallText. split; [|split].
  - destruct (assets pm) as [a|]; simpl; [|discriminate].
    destruct (small_text a) as [text|]; simpl; [|discriminate].
    destruct (String.eqb text "") eqn:E; simpl; [discriminate|].
    now apply String.eqb_neq.
  - intros a text -> Htext Hne. simpl. rewrite Htext. simpl.
    apply String.eqb_neq in Hne. now rewrite Hne.
  - intros [-> | (a & -> & [Hnone | Hempty])]; simpl; [reflexivity| |].
    + now rewrite Hnone.
    + now rewrite Hempty.
Qed.

Lemma getActivity_small_text_witness :
  let h := Scenario.host "Wikipedia" (Some Scenario.notFound)
             (Scenario.options true false None) Scenario.now in
  exists act,
    result (getActivity h Scenario.blank fresh) = Some (Some act)
    /\ field "small_text" (field "assets" (VObject act)) = VString "hello there :3".
Proof.
  intros h.
  destruct (result (getActivity h Scenario.blank fresh)) as [[act|]|] eqn:H;
    try (vm_compute in H; discriminate).
  exists act. split; [reflexivity|].
  destruct (getActivity_small_text h Scenario.blank fresh act H)
    as (Hsmall & _ & _ & Hdefault).
  rewrite Hsmall.
  rewrite (Hdefault (or_intror (ex_intro _ _ (conj eq_refl (or_intror eq_refl))))).
  reflexivity.
Defined.

(** *** Timestamps and buttons *)

Lemma returned_name h pm s act :
  result (getActivity h pm s) = Some (Some act) ->
  exists appInfo large small activity,
    assembled appInfo pm large small activity
    /\ obj_get "name" act = Some (VString (name appInfo))
    /\ act = prune (copyTimestamps h pm (copyButtons h appInfo pm activity)).
Proof.
  intros H.
  apply getActivity_returned in H
    as (appInfo & large & small & activity & _ & Hne & _ & Hact & ->).
  exists appInfo, large, small, activity. split; [assumption|]. split; [|reflexivity].
  apply obj_get_filter_kept.
  - rewrite copyTimestamps_get, copyButtons_get by reflexivity.
    now rewrite (assembled_get _ _ _ _ _ "name" Hact).
  - unfold keep. simpl. apply String.eqb_neq in Hne. now rewrite Hne.
Qed.

(** X11. With one timestamp alone set (truthy) -- the other missing or
    zero -- the returned activity's [timestamps] holds that one alone,
    whatever the category. *)
Theorem getActivity_single_timestamp h pm s act ts :
  result (getActivity h pm s) = Some (Some act) ->
  timestamps pm = Some ts ->
  (forall t, start ts = Some t -> t <> 0 -> truthy (ofNumber (end_ ts)) = false ->
     obj_get "timestamps" act = Some (VObject [("start", VNumber t)]))
  /\ (forall t, truthy (ofNumber (start ts)) = false -> end_ ts = Some t -> t <> 0 ->
     obj_get "timestamps" act = Some (VObject [("end", VNumber t)])).
Proof.
  intros H Hts.
  apply getActivity_returned in H
    as (appInfo & large & small & activity & _ & _ & _ & Hact & ->).
  destruct (before_timestamps h pm appInfo large small activity Hact)
    as (_ & Hnone & _).
  set (X := copyButtons h appInfo pm activity) in *.
  split.
  - intros t Hstart Hnz Hend. unfold copyTimestamps. rewrite Hts. cbv zeta.
    rewrite Hend, Hstart. simpl. apply Z.eqb_neq in Hnz. rewrite Hnz. simpl.
    apply obj_get_filter_kept; [apply obj_get_set_eq|reflexivity].
  - intros t Hstart Hend Hnz. unfold copyTimestamps. rewrite Hts. cbv zeta.
    rewrite Hstart, Hend. simpl. apply Z.eqb_neq in Hnz. rewrite Hnz. simpl.
    apply obj_get_filter_kept; [|reflexivity].
    destruct (isNumber _ _); rewrite obj_get_set_eq;
      rewrite ?setLargeText_get by reflexivity; now rewrite Hnone.
Qed.

Lemma getActivity_single_timestamp_witness :
  let h := Scenario.host "Spotify"
             (Some (Scenario.document (VObject [("category", VString "music")])))
             (Scenario.options false false None) Scenario.now in
  let started := {| start := Some 1699999000; end_ := Some 0 |} in
  let ending := {| start := None; end_ := Some 1700000300 |} in
  (exists act,
     result (getActivity h (Scenario.payload (Some started)) fresh) = Some (Some act)
     /\ obj_get "timestamps" act = Some (VObject [("start", VNumber 1699999000)]))
  /\ (exists act,
     result (getActivity h (Scenario.payload (Some ending)) fresh) = Some (Some act)
     /\ obj_get "timestamps" act = Some (VObject [("end", VNumber 1700000300)])).
Proof.
  intros h started ending. split.
  - destruct (result (getActivity h (Scenario.payload (Some started)) fresh))
      as [[act|]|] eqn:H; try (vm_compute in H; discriminate).
    exists act. split; [reflexivity|].
    destruct (getActivity_single_timestamp h _ fresh act started H eq_refl)
      as (Hstart & _).
    exact (Hstart 1699999000 eq_refl ltac:(discriminate) eq_refl).
  - destruct (result (getActivity h (Scenario.payload (Some ending)) fresh))
      as [[act|]|] eqn:H; try (vm_compute in H; discriminate).
    exists act. split; [reflexivity|].
    destruct (getActivity_single_timestamp h _ fresh act ending H eq_refl)
      as (_ & Hend).
    exact (Hend 1700000300 eq_refl eq_refl ltac:(discriminate)).
Defined.

Lemma copyButtons_off h appInfo pm activity :
  settings.showButtons (settings_store h) = false \/ buttons pm = None ->
  copyButtons h appInfo pm activity = activity.
Proof.
  unfold copyButtons. intros [Hoff | Hnone].
  - rewrite Hoff. now destruct (buttons pm).
  - now rewrite Hnone.
Qed.

(** X12. When buttons are switched off, or the payload has no [buttons],
    the returned activity has neither [buttons] nor [metadata]: the
    payload's metadata is passed on with its buttons or not at all. *)
Theorem getActivity_buttons_off h pm s act :
  result (getActivity h pm s) = Some (Some act) ->
  settings.showButtons (settings_store h) = false \/ buttons pm = None ->
  obj_get "buttons" act = None /\ obj_get "metadata" act = None.
Proof.
  intros H Hoff.
  apply getActivity_returned in H
    as (appInfo & large & small & activity & _ & _ & _ & Hact & ->).
  rewrite copyButtons_off by assumption.
  split; apply obj_get_filter_None; rewrite copyTimestamps_get by reflexivity.
  - now rewrite (assembled_get _ _ _ _ _ "buttons" Hact).
  - now rewrite (assembled_get _ _ _ _ _ "metadata" Hact).
Qed.

Lemma getActivity_buttons_off_witness :
  let h := Scenario.host "Netflix" (Some (Scenario.document Scenario.videosDoc))
             (Scenario.options false false None) Scenario.now in
  exists act,
    result (getActivity h Scenario.withButtons fresh) = Some (Some act)
    /\ obj_get "buttons" act = None /\ obj_get "metadata" act = None.
Proof.
  intros h.
  destruct (result (getActivity h Scenario.withButtons fresh)) as [[act|]|] eqn:H;
    try (vm_compute in H; discriminate).
  exists act. split; [reflexivity|].
  exact (getActivity_buttons_off h Scenario.withButtons fresh act H (or_introl eq_refl)).
Defined.

(** X13. With buttons shown, outside the YouTube case with the
    view-channel button hidden, the payload's labels are passed on as they
    are -- an empty list being dropped -- and so is its metadata object. *)
Theorem getActivity_buttons_copied h pm s act labels :
  result (getActivity h pm s) = Some (Some act) ->
  settings.showButtons (settings_store h) = true ->
  settings.hideViewChannel (settings_store h) = false
  \/ obj_get "name" act <> Some (VString "YouTube") ->
  buttons pm = Some labels ->
  obj_get "buttons" act
  = match labels with [] => None | _ => Some (ofStrings labels) end
  /\ obj_get "metadata" act
     = match metadata pm with
       | Some m => Some (metadataValue (Some m))
       | None => None
       end.
Proof.
  intros H Hshow Hother Hbuttons.
  apply returned_name in H
    as (appInfo & large & small & activity & Hact & Hname & ->).
  assert (Hnd : List.NoDup (map fst (copyTimestamps h pm (copyButtons h appInfo pm activity))))
    by (apply copyTimestamps_NoDup, copyButtons_NoDup;
        now apply assembled_NoDup with appInfo pm large small).
  assert (Hcopy : copyButtons h appInfo pm activity
                  = obj_set "metadata" (metadataValue (metadata pm))
                      (obj_set "buttons" (ofStrings labels) activity)).
  { unfold copyButtons. rewrite Hbuttons, Hshow.
    destruct (String.eqb (name appInfo) "YouTube"
              && settings.hideViewChannel (settings_store h)) eqn:E; [|reflexivity].
    apply andb_prop in E as [Eyt Ehide]. apply String.eqb_eq in Eyt.
    destruct Hother as [Hhide | Hname']; [congruence|].
    rewrite Hname, Eyt in Hname'. congruence. }
  rewrite Hcopy in *. split.
  - assert (Hget : obj_get "buttons"
                     (copyTimestamps h pm
                        (obj_set "metadata" (metadataValue (metadata pm))
                           (obj_set "buttons" (ofStrings labels) activity)))
                   = Some (ofStrings labels)).
    { rewrite copyTimestamps_get, obj_get_set_ne by reflexivity.
      apply obj_get_set_eq. }
    destruct labels as [|first rest].
    + now apply (obj_get_filter_dropped keep _ _ _ Hnd Hget).
    + now apply obj_get_filter_kept.
  - assert (Hget : obj_get "metadata"
                     (copyTimestamps h pm
                        (obj_set "metadata" (metadataValue (metadata pm))
                           (obj_set "buttons" (ofStrings labels) activity)))
                   = Some (metadataValue (metadata pm))).
    { rewrite copyTimestamps_get by reflexivity. apply obj_get_set_eq. }
    destruct (metadata pm) as [m|].
    + apply obj_get_filter_kept; [assumption|].
      unfold metadataValue. destruct (button_urls m); reflexivity.
    + now apply (obj_get_filter_dropped keep _ _ _ Hnd Hget).
Qed.

Lemma getActivity_buttons_copied_witness :
  let h := Scenario.host "YouTube" (Some (Scenario.document Scenario.videosDoc))
             (Scenario.options true false None) Scenario.now in
  exists act,
    result (getActivity h Scenario.withButtons fresh) = Some (Some act)
    /\ obj_get "buttons" act = Some (VArray [VString "Watch"; VString "Subscribe"])
    /\ obj_get "metadata" act
       = Some (VObject [("button_urls",
                         VArray [VString "https://youtu.be/x";
                                 VString "https://youtube.com/c"])]).
Proof.
  intros h.
  destruct (result (getActivity h Scenario.withButtons fresh)) as [[act|]|] eqn:H;
    try (vm_compute in H; discriminate).
  exists act. split; [reflexivity|].
  exact (getActivity_buttons_copied h Scenario.withButtons fresh act
           ["Watch"; "Subscribe"] H eq_refl (or_introl eq_refl) eq_refl).
Defined.

Lemma getActivity_youtube_buttons_witness :
  let h := Scenario.host "YouTube" (Some (Scenario.document Scenario.videosDoc))
             (Scenario.options true true None) Scenario.now in
  exists act,
    result (getActivity h Scenario.withButtons fresh) = Some (Some act)
    /\ obj_get "name" act = Some (VString "YouTube")
    /\ obj_get "buttons" act = Some (VArray [VString "Watch"])
    /\ obj_get "metadata" act = None.
Proof.
  intros h.
  destruct (result (getActivity h Scenario.withButtons fresh)) as [[act|]|] eqn:H;
    try (vm_compute in H; discriminate).
  assert (Hname : obj_get "name" act = Some (VString "YouTube"))
    by (vm_compute in H; injection H as <-; reflexivity).
  exists act. split; [reflexivity|]. split; [exact Hname|].
  exact (getActivity_youtube_buttons h Scenario.withButtons fresh act
           "Watch" ["Subscribe"] H eq_refl eq_refl Hname eq_refl).
Defined.

(** X15. In the YouTube case with the view-channel button hidden, a
    payload whose [buttons] is the empty list yields a [buttons] array of
    one [undefined] element: index 0 is read without a bounds check and
    the one-element array survives the final loop. *)
Theorem getActivity_youtube_no_labels h pm s act :
  result (getActivity h pm s) = Some (Some act) ->
  settings.showButtons (settings_store h) = true ->
  settings.hideViewChannel (settings_store h) = true ->
  obj_get "name" act = Some (VString "YouTube") ->
  buttons pm = Some [] ->
  obj_get "buttons" act = Some (VArray [VUndefined]).
Proof.
  intros H Hshow Hhide Hname Hbuttons.
  apply returned_name in H
    as (appInfo & large & small & activity & Hact & Hname' & ->).
  assert (Hyt : name appInfo = "YouTube") by congruence.
  assert (Hnone : obj_get "metadata" activity = None)
    by now rewrite (assembled_get _ _ _ _ _ "metadata" Hact).
  rewrite (copyButtons_youtube h appInfo pm activity []) by assumption.
  apply obj_get_filter_kept; [|reflexivity].
  rewrite copyTimestamps_get by reflexivity. apply obj_get_set_eq.
Qed.

Lemma getActivity_youtube_no_labels_witness :
  let h := Scenario.host "YouTube" (Some (Scenario.document Scenario.videosDoc))
             (Scenario.options true true None) Scenario.now in
  exists act,
    result (getActivity h Scenario.blank fresh) = Some (Some act)
    /\ obj_get "name" act = Some (VString "YouTube")
    /\ obj_get "buttons" act = Some (VArray [VUndefined]).
Proof.
  intros h.
  destruct (result (getActivity h Scenario.blank fresh)) as [[act|]|] eqn:H;
    try (vm_compute in H; discriminate).
  assert (Hname : obj_get "name" act = Some (VString "YouTube"))
    by (vm_compute in H; injection H as <-; reflexivity).
  exists act. split; [reflexivity|]. split; [exact Hname|].
  exact (getActivity_youtube_no_labels h Scenario.blank fresh act
           H eq_refl eq_refl Hname eq_refl).
Defined.

(** *** Asset lookups *)

(** X16. For an application already cached under a publishable name and
    assets that resolve, synthesis makes two asset lookups -- the large
    key, then the small key, each the payload's own or the placeholder
    "guh" / "guhh" -- and, when the category is Playing, makes the same
    two lookups a second time. It makes no other external call. *)
Theorem getActivity_asset_calls h pm s appInfo large small :
  apps s !! application_id pm = Some appInfo ->
  name appInfo <> "" -> name appInfo <> "PreMiD" ->
  getAsset h (application_id pm) (largeImageKey pm) = Some large ->
  getAsset h (application_id pm) (smallImageKey pm) = Some small ->
  let lookups := [CallGetAsset (application_id pm) (largeImageKey pm);
                  CallGetAsset (application_id pm) (smallImageKey pm)] in
  calls (final (getActivity h pm s))
  = (calls s ++ lookups
       ++ match default PLAYING (statusType appInfo) with
          | PLAYING => lookups
          | _ => []
          end)%list
  /\ (assets pm = None -> largeImageKey pm = "guh" /\ smallImageKey pm = "guhh")
  /\ (forall a key, assets pm = Some a -> large_image a = Some key ->
      largeImageKey pm = key).
Proof.
  intros Hhit Hne Hns Hl Hs lookups. split; [|split].
  - unfold getActivity, bind at 1, getApp. rewrite Hhit.
    apply String.eqb_neq in Hne, Hns. simpl. rewrite Hne, Hns. simpl.
    unfold brand, getAppAsset, bind, await, ret. rewrite Hl, Hs.
    change (field "type" (VObject (initialActivity appInfo pm large small)))
      with (typeCode appInfo).
    rewrite typeCode_code. subst lookups.
    destruct (statusType appInfo) as [[]|]; simpl;
      rewrite <- ?app_assoc; simpl; rewrite ?app_nil_r; reflexivity.
  - intros Hnone. unfold largeImageKey, smallImageKey. now rewrite Hnone.
  - intros a key Ha Hkey. unfold largeImageKey. rewrite Ha. simpl. now rewrite Hkey.
Qed.

Lemma getActivity_asset_calls_witness :
  let h := Scenario.host "Wikipedia" None
             (Scenario.options false false None) Scenario.now in
  let s := {| apps := {["463097721130188830" := Scenario.app "Wikipedia"]};
              calls := [] |} in
  calls (final (getActivity h (Scenario.payload None) s))
  = [CallGetAsset "463097721130188830" "guh";
     CallGetAsset "463097721130188830" "guhh";
     CallGetAsset "463097721130188830" "guh";
     CallGetAsset "463097721130188830" "guhh"].
Proof.
  intros h s.
  exact (proj1 (getActivity_asset_calls h (Scenario.payload None) s
                  (Scenario.app "Wikipedia") _ _ eq_refl
                  ltac:(discriminate) ltac:(discriminate) eq_refl eq_refl)).
Defined.

(** X17. When an asset lookup rejects, synthesis rejects: no activity is
    produced, while the descriptor resolved on the way stays cached. *)
Theorem getActivity_asset_rejects h pm s appInfo :
  result (getApp h (application_id pm) s) = Some appInfo ->
  name appInfo <> "" -> name appInfo <> "PreMiD" ->
  getAsset h (application_id pm) (largeImageKey pm) = None
  \/ getAsset h (application_id pm) (smallImageKey pm) = None ->
  result (getActivity h pm s) = None
  /\ apps (final (getActivity h pm s)) !! application_id pm = Some appInfo.
Proof.
  intros Happ Hne Hns Hrej. split.
  - unfold getActivity, bind.
    destruct (getApp h (application_id pm) s) as [a s1|s1]; [|discriminate].
    simpl in Happ. injection Happ as ->.
    apply String.eqb_neq in Hne, Hns. simpl. rewrite Hne, Hns. simpl.
    unfold getAppAsset, await.
    destruct Hrej as [-> | Hs]; [reflexivity|].
    destruct (getAsset h (application_id pm) (largeImageKey pm)); [|reflexivity].
    now rewrite Hs.
  - rewrite getActivity_apps. now apply getApp_cached.
Qed.

Lemma getActivity_asset_rejects_witness :
  let h := {| lookupRpcApp := fun _ => Some (Scenario.app "Netflix");
              fetch := fun _ => Some Scenario.notFound;
              getAsset := fun _ _ => None;
              Date_now := 0;
              settings_store := Scenario.options false false None |} in
  result (getActivity h (Scenario.payload None) fresh) = None
  /\ apps (final (getActivity h (Scenario.payload None) fresh)) !! "463097721130188830"
     = Some (Scenario.app "Netflix").
Proof.
  intros h.
  exact (getActivity_asset_rejects h (Scenario.payload None) fresh
           (Scenario.app "Netflix") eq_refl
           ltac:(discriminate) ltac:(discriminate) (or_introl eq_refl)).
Defined.

Lemma getActivity_returns_witness :
  let h := Scenario.host "Netflix" (Some Scenario.notFound)
             (Scenario.options false false None) Scenario.now in
  exists act, result (getActivity h Scenario.blank fresh) = Some (Some act).
Proof.
  intros h.
  exact (getActivity_returns h Scenario.blank fresh
           (withStatusType (Scenario.app "Netflix") None)
           "mp:external/" "mp:external/" eq_refl
           ltac:(discriminate) ltac:(discriminate) eq_refl eq_refl).
Defined.

End Fields.

(** ** formatTime below zero *)

Section Clock.

Import Silly.

(** X18. A duration of less than a minute below zero -- an end timestamp
    just past -- is not clamped: [formatTime] gives "-1:" followed by the
    negative number of seconds. *)
Theorem formatTime_overdue seconds :
  -60 < seconds < 0 -> formatTime seconds = "-1:" +:+ toString seconds.
Proof.
  intros Hrange.
  assert (Hall : forallb
                   (fun n => String.eqb (formatTime (- Z.of_nat n))
                               ("-1:" +:+ toString (- Z.of_nat n)))
                   (seq 1 59) = true) by (vm_compute; reflexivity).
  rewrite forallb_forall in Hall.
  specialize (Hall (Z.to_nat (- seconds))).
  rewrite Z2Nat.id, Z.opp_involutive in Hall by lia.
  apply String.eqb_eq, Hall, in_seq. lia.
Qed.

Lemma formatTime_overdue_witness :
  -60 < -5 < 0 /\ formatTime (-5) = "-1:-5".
Proof.
  split; [lia|]. exact (formatTime_overdue (-5) ltac:(lia)).
Defined.

End Clock.

(** ** The socket handlers *)

Section Handlers.

Import Silly.

(** X19. A [setActivity] frame for an application that resolves to an
    empty name or to "PreMiD" still dispatches: the action carries
    [undefined] as its activity, tagged with the socket id "PreMiD". *)
Theorem onmessage_suppressed h readyState user message pm s appInfo :
  type message = "setActivity" -> data message = Some pm ->
  result (getApp h (application_id pm) s) = Some appInfo ->
  name appInfo = "" \/ name appInfo = "PreMiD" ->
  dispatched (onmessage h readyState user (Some message) s)
  = [LOCAL_ACTIVITY_UPDATE VUndefined "PreMiD"]
  /\ completed (onmessage h readyState user (Some message) s) = true.
Proof.
  intros Htype Hdata Happ Hname. unfold onmessage.
  rewrite Htype, Hdata. simpl.
  unfold getActivity, bind.
  destruct (getApp h (application_id pm) s) as [a s1|s1]; [|discriminate].
  simpl in Happ. injection Happ as ->.
  destruct Hname as [-> | ->]; simpl; now split.
Qed.

Lemma onmessage_suppressed_witness :
  let h := Scenario.host "PreMiD" (Some Scenario.notFound)
             (Scenario.options true true (Some WATCHING)) Scenario.now in
  let message := {| type := "setActivity"; data := Some Scenario.withButtons |} in
  dispatched (onmessage h OPEN VNull (Some message) fresh)
  = [LOCAL_ACTIVITY_UPDATE VUndefined "PreMiD"].
Proof.
  intros h message.
  exact (proj1 (onmessage_suppressed h OPEN VNull message Scenario.withButtons fresh
                  (withStatusType (Scenario.app "PreMiD") (Some WATCHING))
                  eq_refl eq_refl eq_refl (or_intror eq_refl))).
Defined.



End Handlers.

(** ** Connection life cycle *)

Section LifeCycle.

Import Silly.
Import Silly.shig.

Lemma notifications_emit e st :
  notifications (emit e st) = (notifications st + length (List.filter isNotified e))%nat.
Proof.
  unfold notifications, emit. simpl.
  now rewrite List.filter_app, List.length_app.
Qed.

Lemma notifications_initShidd st : notifications (initShidd st) = notifications st.
Proof.
  unfold initShidd, notifications. destruct (ws st); simpl;
    rewrite !List.filter_app, !List.length_app; simpl; lia.
Qed.

Lemma isReconnecting_initShidd st : isReconnecting (initShidd st) = isReconnecting st.
Proof. unfold initShidd. now destruct (ws st). Qed.

Lemma step_budget st e :
  (notifications (step st e) + pending (step st e)
   <= notifications st + pending st + (if isRequest e then 1 else 0))%nat.
Proof.
  assert (Hflag : forall b st',
            notifications (setReconnecting b st') = notifications st') by reflexivity.
  destruct e as [| | |connectionSuccessful| |]; cbn [step isRequest];
    unfold start, stop, reconnect, onClick, onclose, pending.
  - rewrite notifications_initShidd, isReconnecting_initShidd. lia.
  - rewrite notifications_emit. cbn. lia.
  - rewrite notifications_initShidd, isReconnecting_initShidd.
    unfold stop. rewrite notifications_emit, Hflag. cbn.
    destruct (isReconnecting st); lia.
  - unfold afterTimeout. destruct connectionSuccessful; cbn [negb]; [lia|].
    cbn [isReconnecting emit].
    destruct (isReconnecting st) eqn:E.
    + rewrite Hflag, !notifications_emit. cbn. lia.
    + rewrite notifications_emit. cbn. rewrite E. lia.
  - rewrite notifications_initShidd, isReconnecting_initShidd, Hflag. cbn.
    destruct (isReconnecting st); lia.
  - rewrite notifications_emit. cbn. lia.
Qed.

Lemma run_budget events st :
  (notifications (run events st) + pending (run events st)
   <= notifications st + pending st + requests events)%nat.
Proof.
  revert st. induction events as [|e events IH]; intros st; simpl.
  - unfold requests. simpl. lia.
  - unfold run in *. simpl. specialize (IH (step st e)).
    pose proof (step_budget st e) as Hstep.
    unfold requests in *. simpl.
    destruct (isRequest e); simpl; lia.
Qed.

(** X21. However starts, stops, reconnect requests, timer expiries,
    notification clicks and socket closes interleave after the plugin is
    loaded, the connection-failure notification has been shown at most
    once per request made (a use of the Reconnect action or a click on
    the notification). *)
Theorem notifications_bounded events :
  (notifications (run events loaded) <= requests events)%nat.
Proof.
  pose proof (run_budget events loaded) as H.
  unfold pending in H at 2. simpl in H.
  change (notifications loaded) with 0%nat in H. lia.
Qed.

(** X22. The reconnect flag is cleared by a failed attempt alone. A start
    that fails with the flag down notifies nobody; a Reconnect that fails
    notifies once and lowers the flag; a Reconnect that succeeds leaves
    the flag up, so that the next start to fail -- though nobody asked to
    reconnect -- notifies. *)
Theorem reconnect_flag st :
  (isReconnecting st = false ->
   notifications (afterTimeout false (start st)) = notifications st)
  /\ (notifications (afterTimeout false (reconnect st)) = S (notifications st)
      /\ isReconnecting (afterTimeout false (reconnect st)) = false)
  /\ (isReconnecting (afterTimeout true (reconnect st)) = true
      /\ notifications (afterTimeout false (start (afterTimeout true (reconnect st))))
         = S (notifications st)).
Proof.
  assert (Hfail : forall st', isReconnecting st' = true ->
            notifications (afterTimeout false st') = S (notifications st')
            /\ isReconnecting (afterTimeout false st') = false).
  { intros st' Hflag. unfold afterTimeout. simpl. rewrite Hflag. simpl.
    split; [|reflexivity]. unfold notifications. simpl.
    rewrite !List.filter_app, !List.length_app. simpl. lia. }
  assert (Hre : isReconnecting (reconnect st) = true
                /\ notifications (reconnect st) = notifications st).
  { unfold reconnect. unfold start, stop. split.
    - now rewrite isReconnecting_initShidd.
    - rewrite notifications_initShidd, notifications_emit. simpl.
      unfold notifications, setReconnecting. simpl. lia. }
  destruct Hre as (Hflag & Hcount).
  split; [|split].
  - intros Hdown. unfold afterTimeout, start. cbn [negb isReconnecting emit].
    rewrite isReconnecting_initShidd, Hdown.
    rewrite notifications_emit, notifications_initShidd. cbn. lia.
  - destruct (Hfail _ Hflag) as (Hn & Hf). now rewrite Hn, Hcount.
  - change (afterTimeout true (reconnect st)) with (reconnect st).
    split; [exact Hflag|].
    destruct (Hfail (start (reconnect st))) as (Hn & _).
    + unfold start. now rewrite isReconnecting_initShidd.
    + rewrite Hn. unfold start. now rewrite notifications_initShidd, Hcount.
Qed.

Lemma reconnect_flag_witness :
  isReconnecting loaded = false
  /\ notifications (afterTimeout false (start loaded)) = 0%nat
  /\ notifications (afterTimeout false (reconnect loaded)) = 1%nat
  /\ notifications (afterTimeout false (start (afterTimeout true (reconnect loaded))))
     = 1%nat.
Proof.
  destruct (reconnect_flag loaded) as (Hquiet & (Honce & _) & (_ & Hsticky)).
  split; [reflexivity|].
  split; [exact (Hquiet eq_refl)|]. split; [exact Honce|exact Hsticky].
Defined.

End LifeCycle.

(** ** The text bridge: every branch of the send handler *)

Section Routing.

Import VrcText.

Lemma sent_routed content pop (b : Bridge) t :
  readyState b <> CONNECTING ->
  (sendTyping false ;; sendWsMessage content pop true ;;
   ret {| MessageObject.content := lit "" |}) b t
  = (Some {| MessageObject.content := lit "" |},
     {| sent := sent t ++ routed content pop; stopped := stopped t |}).
Proof.
  intros Hstate. unfold bind, sendWsMessage, sendTyping, ws_send, bind, ret, routed.
  destruct (readyState b); try congruence; simpl; now rewrite <- !app_assoc.
Qed.

Lemma connecting_throws content pop (b : Bridge) t :
  readyState b = CONNECTING ->
  (sendTyping false ;; sendWsMessage content pop true ;;
   ret {| MessageObject.content := lit "" |}) b t
  = (None, t).
Proof.
  intros Hstate. unfold bind, sendTyping, ws_send. now rewrite Hstate.
Qed.

(** X23. What one run of the send handler can amount to. It throws only
    while the socket is connecting, and then nothing has been sent. It
    runs [stop()] exactly when the socket is closed, and then the message
    is left as it is. Otherwise it either sends nothing, or clears the
    message and sends exactly the three frames of one routed message: a
    message is never both bridged and left to the normal pipeline. *)
Theorem onSend_outcomes b msg t :
  match onSend msg b t with
  | (None, t') => readyState b = CONNECTING /\ t' = t
  | (Some msg', t') =>
      (readyState b = CLOSED
       /\ msg' = msg /\ sent t' = sent t /\ stopped t' = true)
      \/ (readyState b <> CLOSED /\ stopped t' = stopped t
          /\ (sent t' = sent t
              \/ exists content pop,
                   MessageObject.content msg' = []
                   /\ sent t' = (sent t ++ routed content pop)%list))
  end.
Proof.
  unfold onSend.
  destruct (readyState b) eqn:Hstate.
  - (* CONNECTING *)
    destruct (override b).
    + destruct (startsWith _ _).
      * simpl. right. repeat split; try discriminate. now left.
      * rewrite connecting_throws by assumption. now split.
    + destruct (startsWith (lit "==") _).
      * rewrite connecting_throws by assumption. now split.
      * destruct (startsWith (lit "=/=") _).
        -- rewrite connecting_throws by assumption. now split.
        -- simpl. right. repeat split; try discriminate. now left.
  - (* OPEN *)
    assert (Hne : readyState b <> CONNECTING) by (rewrite Hstate; discriminate).
    destruct (override b); repeat destruct (startsWith _ _);
      rewrite ?sent_routed by assumption; simpl;
      right; (split; [discriminate|]); (split; [reflexivity|]);
      first [ right; eexists _, _; split; reflexivity | now left ].
  - (* CLOSING *)
    assert (Hne : readyState b <> CONNECTING) by (rewrite Hstate; discriminate).
    destruct (override b); repeat destruct (startsWith _ _);
      rewrite ?sent_routed by assumption; simpl;
      right; (split; [discriminate|]); (split; [reflexivity|]);
      first [ right; eexists _, _; split; reflexivity | now left ].
  - (* CLOSED *)
    simpl. left. repeat split.
Qed.

(** X24. With override off and the socket open or closing, a message is
    routed to the bridge exactly when its trimmed content starts with
    "==" or with "=/="; any other message is left untouched and nothing
    is sent. *)
Theorem onSend_prefix_only b msg t :
  readyState b = OPEN \/ readyState b = CLOSING ->
  override b = false ->
  let trimmed := trim (MessageObject.content msg) in
  (startsWith (lit "==") trimmed = false ->
   startsWith (lit "=/=") trimmed = false ->
   onSend msg b t = (Some msg, t))
  /\ (sent (snd (onSend msg b t)) <> sent t
      <-> startsWith (lit "==") trimmed = true
          \/ startsWith (lit "=/=") trimmed = true).
Proof.
  intros Hstate Hover trimmed. subst trimmed.
  assert (Hne : readyState b <> CONNECTING)
    by (destruct Hstate as [-> | ->]; discriminate).
  assert (Hgrow : forall content pop, (sent t ++ routed content pop)%list <> sent t).
  { intros content pop Heq.
    apply (f_equal (@length Frame)) in Heq.
    rewrite List.length_app in Heq. simpl in Heq. lia. }
  unfold onSend. rewrite Hover.
  destruct Hstate as [Hstate | Hstate]; rewrite Hstate;
    destruct (startsWith (lit "==") _) eqn:E1;
    destruct (startsWith (lit "=/=") _) eqn:E2;
    rewrite ?sent_routed by assumption; cbn [snd sent];
    (split; [intros H1 H2; first [discriminate | reflexivity]|]);
    (split;
     [ intros H; first [ now left | now right | now contradiction H ]
     | intros [H | H]; first [ discriminate | apply Hgrow ] ]).
Qed.

Lemma onSend_prefix_only_witness :
  let b := {| readyState := OPEN; override := false |} in
  let plain := {| MessageObject.content := lit "hello = world" |} in
  onSend plain b idle = (Some plain, idle)
  /\ sent (snd (onSend {| MessageObject.content := lit " =/=psst" |} b idle))
     = routed (lit " psst") false.
Proof.
  intros b plain.
  destruct (onSend_prefix_only b plain idle (or_introl eq_refl) eq_refl)
    as (Hplain & _).
  split; [exact (Hplain eq_refl eq_refl)|reflexivity].
Defined.

(** X25. Override mode inverts the rule. With the socket open or
    closing, a message whose trimmed content starts with "==" is left to
    the normal pipeline with its first "==" (and then first "=/=")
    removed and nothing is sent; every other message is bridged and
    cleared -- with the notification sound on, also when it starts with
    the silent prefix "=/=". *)
Theorem onSend_override b msg t :
  readyState b = OPEN \/ readyState b = CLOSING ->
  override b = true ->
  let content :=
    replace (lit "=/=") (replace (lit "==") (MessageObject.content msg)) in
  let trimmed := trim (MessageObject.content msg) in
  (startsWith (lit "==") trimmed = true ->
   onSend msg b t = (Some {| MessageObject.content := content |}, t))
  /\ (startsWith (lit "==") trimmed = false ->
      onSend msg b t
      = (Some {| MessageObject.content := lit "" |},
         {| sent := sent t ++ routed content true; stopped := stopped t |})).
Proof.
  intros Hstate Hover content trimmed. subst content trimmed.
  assert (Hne : readyState b <> CONNECTING)
    by (destruct Hstate as [-> | ->]; discriminate).
  unfold onSend. rewrite Hover.
  destruct Hstate as [Hstate | Hstate]; rewrite Hstate;
    (split; intros ->; [reflexivity|now rewrite sent_routed]).
Qed.

Lemma onSend_override_witness :
  let b := {| readyState := OPEN; override := true |} in
  onSend {| MessageObject.content := lit "==to discord" |} b idle
  = (Some {| MessageObject.content := lit "to discord" |}, idle)
  /\ onSend {| MessageObject.content := lit "=/=to vrchat" |} b idle
     = (Some {| MessageObject.content := lit "" |},
        {| sent := routed (lit "to vrchat") true; stopped := false |}).
Proof.
  intros b. split.
  - exact (proj1 (onSend_override b {| MessageObject.content := lit "==to discord" |}
                    idle (or_introl eq_refl) eq_refl) eq_refl).
  - exact (proj2 (onSend_override b {| MessageObject.content := lit "=/=to vrchat" |}
                    idle (or_introl eq_refl) eq_refl) eq_refl).
Defined.

(** X26. With override off and the socket open or closing, a message
    whose trimmed content starts with "=/=" (and not with "==") is bridged
    with the notification sound off, and cleared. What is sent is the
    message with its first "==" and then its first "=/=" removed; where
    the message holds no "==" at all, that is the message with its first
    "=/=" removed. *)
Theorem onSend_silent b msg t :
  readyState b = OPEN \/ readyState b = CLOSING ->
  override b = false ->
  startsWith (lit "==") (trim (MessageObject.content msg)) = false ->
  startsWith (lit "=/=") (trim (MessageObject.content msg)) = true ->
  onSend msg b t
  = (Some {| MessageObject.content := lit "" |},
     {| sent := sent t
                ++ routed (replace (lit "=/=")
                             (replace (lit "==") (MessageObject.content msg))) false;
        stopped := stopped t |})
  /\ (includes (lit "==") (MessageObject.content msg) = false ->
      replace (lit "=/=") (replace (lit "==") (MessageObject.content msg))
      = replace (lit "=/=") (MessageObject.content msg)).
Proof.
  intros Hstate Hover Hnot Hsilent.
  assert (Hne : readyState b <> CONNECTING)
    by (destruct Hstate as [-> | ->]; discriminate).
  split.
  - unfold onSend. rewrite Hover, Hnot, Hsilent.
    destruct Hstate as [Hstate | Hstate]; rewrite Hstate; now rewrite sent_routed.
  - intros Habsent. now rewrite (replace_absent _ _ Habsent).
Qed.

Lemma onSend_silent_witness :
  let b := {| readyState := OPEN; override := false |} in
  onSend {| MessageObject.content := lit "=/=psst" |} b idle
  = (Some {| MessageObject.content := lit "" |},
     {| sent := routed (lit "psst") false; stopped := false |})
  /\ onSend {| MessageObject.content := lit "=/==x" |} b idle
     = (Some {| MessageObject.content := lit "" |},
        {| sent := routed (lit "=/x") false; stopped := false |}).
Proof.
  intros b. split.
  - exact (proj1 (onSend_silent b {| MessageObject.content := lit "=/=psst" |} idle
                    (or_introl eq_refl) eq_refl eq_refl eq_refl)).
  - exact (proj1 (onSend_silent b {| MessageObject.content := lit "=/==x" |} idle
                    (or_introl eq_refl) eq_refl eq_refl eq_refl)).
Defined.

Lemma silent_prefix_not_loud draft :
  startsWith (lit "=/=") draft = true -> startsWith (lit "==") draft = false.
Proof.
  change (lit "=/=") with [61; 47; 61]%N. change (lit "==") with [61; 61]%N.
  destruct draft as [|a [|c draft]]; cbn [startsWith].
  - discriminate.
  - rewrite andb_false_r. discriminate.
  - destruct (61 =? a)%N; cbn [andb]; [|discriminate].
    destruct (N.eqb_spec 47 c); cbn [andb]; [|discriminate].
    subst c. reflexivity.
Qed.

(** X27. The typing signal looks at the draft as typed, untrimmed. With
    the socket open or closing, "typing:true" is sent exactly when the
    draft itself starts with "=="; so a draft starting with the silent
    prefix "=/=", or with white space before its "==", signals nothing --
    although, override off, the send handler then routes that same text.
    With the socket closed nothing is sent. *)
Theorem DRAFT_CHANGE_typing b draft t :
  (readyState b = CLOSED -> DRAFT_CHANGE draft b t = (Some tt, t))
  /\ (readyState b = OPEN \/ readyState b = CLOSING ->
      (startsWith (lit "==") draft = true ->
       DRAFT_CHANGE draft b t
       = (Some tt, {| sent := sent t ++ [Text "typing:true"]; stopped := stopped t |}))
      /\ (startsWith (lit "==") draft = false -> DRAFT_CHANGE draft b t = (Some tt, t))
      /\ (startsWith (lit "=/=") draft = true -> DRAFT_CHANGE draft b t = (Some tt, t))
      /\ (override b = false ->
          startsWith (lit "==") draft = false ->
          startsWith (lit "==") (trim draft) = true ->
          DRAFT_CHANGE draft b t = (Some tt, t)
          /\ exists content,
               onSend {| MessageObject.content := draft |} b t
               = (Some {| MessageObject.content := lit "" |},
                  {| sent := sent t ++ routed content true; stopped := stopped t |}))).
Proof.
  assert (Hquiet : readyState b = OPEN \/ readyState b = CLOSING ->
                   startsWith (lit "==") draft = false ->
                   DRAFT_CHANGE draft b t = (Some tt, t)).
  { intros Hstate Hnot. unfold DRAFT_CHANGE. rewrite Hnot.
    destruct Hstate as [-> | ->]; reflexivity. }
  split.
  - intros Hclosed. unfold DRAFT_CHANGE. now rewrite Hclosed.
  - intros Hstate. split; [|split; [|split]].
    + intros Hloud. unfold DRAFT_CHANGE. rewrite Hloud.
      destruct Hstate as [Hstate | Hstate]; rewrite Hstate;
        unfold sendTyping, ws_send; now rewrite Hstate.
    + now apply Hquiet.
    + intros Hsilent. apply Hquiet; [assumption|].
      now apply silent_prefix_not_loud.
    + intros Hover Hnot Htrim. split; [now apply Hquiet|].
      eexists. apply (onSend_routes b {| MessageObject.content := draft |} t);
        assumption.
Qed.

Lemma DRAFT_CHANGE_typing_witness :
  let b := {| readyState := OPEN; override := false |} in
  DRAFT_CHANGE (lit "==hi") b idle
  = (Some tt, {| sent := [Text "typing:true"]; stopped := false |})
  /\ DRAFT_CHANGE (lit " ==hi") b idle = (Some tt, idle)
  /\ sent (snd (onSend {| MessageObject.content := lit " ==hi" |} b idle))
     = routed (lit " hi") true.
Proof.
  intros b.
  destruct (DRAFT_CHANGE_typing b (lit "==hi") idle) as (_ & Hopen).
  destruct (Hopen (or_introl eq_refl)) as (Hloud & _).
  destruct (DRAFT_CHANGE_typing b (lit " ==hi") idle) as (_ & Hopen').
  destruct (Hopen' (or_introl eq_refl)) as (_ & _ & _ & Hmismatch).
  destruct (Hmismatch eq_refl eq_refl eq_refl) as (Hnone & _).
  split; [exact (Hloud eq_refl)|]. split; [exact Hnone|reflexivity].
Defined.

End Routing.
